(** * AMDGPUToROCDL: lowering of raw buffer operations

    A shallow embedding of [RawBufferOpLowering::matchAndRewrite] from
    mlir/lib/Conversion/AMDGPUToROCDL/AMDGPUToROCDL.cpp.

    The lowering is a function from an operation (and a chipset) to the
    intrinsic call that replaces it.  An SSA value is identified with the
    operation that defines it together with that operation's operands, so
    the instructions emitted through the rewriter appear as the nodes of
    the argument values of the intrinsic. *)

From Stdlib Require Import ZArith NArith List String Ascii Bool Lia.
From Stdlib Require Import DecimalString.
Import ListNotations.

Local Open Scope Z_scope.

(** ** Machine integers *)

(** Conversion to [uint32_t]. *)
Definition to_uint32 (x : Z) : Z := x mod 2 ^ 32.

(** Conversion to [int32_t] (two's complement). *)
Definition to_int32 (x : Z) : Z := (x + 2 ^ 31) mod 2 ^ 32 - 2 ^ 31.

(** Conversion to [int64_t] (two's complement); also the result of an
    [int64_t] product that leaves the range. *)
Definition to_int64 (x : Z) : Z := (x + 2 ^ 63) mod 2 ^ 64 - 2 ^ 63.

(** The value held by a [w]-bit register, read as unsigned. *)
Definition wrap (w : Z) (x : Z) : Z := x mod 2 ^ w.

(** ** Types *)

Inductive FloatKind : Type := BF16 | F16 | F32 | F64.

Inductive ScalarType : Type :=
| IntegerType (width : N)
| FloatType (kind : FloatKind).

(** [mlir::Type], restricted to the types the lowering meets.  The last two
    are the LLVM types of a converted memref and of its aligned pointer. *)
Inductive MlirType : Type :=
| ScalarTy (t : ScalarType)
| VectorType (shape : list N) (elementType : ScalarType)
| MemRefDescriptorType
| LLVMPointerType.

Definition getFloatWidth (k : FloatKind) : N :=
  match k with
  | BF16 => 16
  | F16 => 16
  | F32 => 32
  | F64 => 64
  end%N.

Definition getIntOrFloatBitWidth (t : ScalarType) : N :=
  match t with
  | IntegerType w => w
  | FloatType k => getFloatWidth k
  end.

(** [VectorType::getNumElements]: the product of the dimensions. *)
Definition getNumElements (shape : list N) : N :=
  fold_right N.mul 1%N shape.

Definition i32 : MlirType := ScalarTy (IntegerType 32).
Definition i64 : MlirType := ScalarTy (IntegerType 64).

(** Modelled from the spec: [LLVMTypeConverter::convertType] is not under
    src/.  The spec names every wire type by the builtin type itself
    ("a single scalar integer of width total", "a vector of total/32 32-bit
    integers"), so the integer, float and vector types of this lowering
    convert to themselves. *)
Definition convertType (t : MlirType) : MlirType := t.

(** The converted [index] type of the memref descriptor fields, under the
    default options with which the pass builds its [LLVMTypeConverter]. *)
Definition llvmIndexType : MlirType := i64.

Definition FloatKind_eq_dec (a b : FloatKind) : {a = b} + {a <> b}.
Proof. decide equality. Defined.

Definition ScalarType_eq_dec (a b : ScalarType) : {a = b} + {a <> b}.
Proof. decide equality; [apply N.eq_dec | apply FloatKind_eq_dec]. Defined.

Definition MlirType_eq_dec (a b : MlirType) : {a = b} + {a <> b}.
Proof.
  decide equality;
    [apply ScalarType_eq_dec | apply ScalarType_eq_dec
     | apply (list_eq_dec N.eq_dec)].
Defined.

(** ** Values *)

(** [mlir::Value] (non-null).  [Operand] is an operand handed over by the
    adaptor; every other constructor is the result of the operation the
    rewriter was asked to create, or of a [MemRefDescriptor] accessor. *)
Inductive Value : Type :=
| Operand (id : nat) (ty : MlirType)
| LLVM_ConstantOp (ty : MlirType) (value : Z)
| LLVM_UndefOp (ty : MlirType)
| LLVM_PtrToIntOp (ty : MlirType) (arg : Value)
| LLVM_TruncOp (ty : MlirType) (arg : Value)
| LLVM_LShrOp (lhs rhs : Value)
| LLVM_AndOp (ty : MlirType) (lhs rhs : Value)
| LLVM_MulOp (lhs rhs : Value)
| LLVM_AddOp (lhs rhs : Value)
| LLVM_MaximumOp (lhs rhs : Value)
| LLVM_InsertElementOp (ty : MlirType) (vector element position : Value)
| LLVM_BitcastOp (ty : MlirType) (arg : Value)
| MemRefDescriptor_alignedPtr (memref : Value)
| MemRefDescriptor_size (memref : Value) (pos : nat)
| MemRefDescriptor_stride (memref : Value) (pos : nat)
| MemRefDescriptor_offset (memref : Value)
| createIndexConstant (value : Z)
| IntrinsicResult (ty : MlirType).

Definition Value_eq_dec (a b : Value) : {a = b} + {a <> b}.
Proof.
  decide equality;
    try apply MlirType_eq_dec; try apply Z.eq_dec; apply Nat.eq_dec.
Defined.

(** [Value::getType].  The arithmetic operations built without an explicit
    result type take the type of their first operand. *)
Fixpoint getType (v : Value) : MlirType :=
  match v with
  | Operand _ ty => ty
  | LLVM_ConstantOp ty _ => ty
  | LLVM_UndefOp ty => ty
  | LLVM_PtrToIntOp ty _ => ty
  | LLVM_TruncOp ty _ => ty
  | LLVM_LShrOp lhs _ => getType lhs
  | LLVM_AndOp ty _ _ => ty
  | LLVM_MulOp lhs _ => getType lhs
  | LLVM_AddOp lhs _ => getType lhs
  | LLVM_MaximumOp lhs _ => getType lhs
  | LLVM_InsertElementOp ty _ _ _ => ty
  | LLVM_BitcastOp ty _ => ty
  | MemRefDescriptor_alignedPtr _ => LLVMPointerType
  | MemRefDescriptor_size _ _ => llvmIndexType
  | MemRefDescriptor_stride _ _ => llvmIndexType
  | MemRefDescriptor_offset _ => llvmIndexType
  | createIndexConstant _ => llvmIndexType
  | IntrinsicResult ty => ty
  end.

(** ** Operations *)

Record Chipset : Type := mkChipset {
  majorVersion : Z;
  minorVersion : Z
}.

(** [MemRefType], by what the lowering asks of it.  [getShape] holds
    [kDynamicSize] at a dynamic dimension; [stridesAndOffset] is the result
    of [getStridesAndOffset], [None] when it fails. *)
Record MemRefType : Type := mkMemRefType {
  getShape : list Z;
  getElementTypeBitWidth : N;
  stridesAndOffset : option (list Z * Z)
}.

(** What the three operations share. *)
Record Common : Type := mkCommon {
  getMemref : Value;
  memrefType : MemRefType;
  getIndices : list Value;
  getBoundsCheck : bool;
  getIndexOffset : option Z;
  getSgprOffset : option Value
}.

(** The template parameter [GpuOp], with the operation's instance. *)
Inductive GpuOp : Type :=
| RawBufferLoadOp (c : Common) (resultType : MlirType)
| RawBufferStoreOp (value : Value) (c : Common)
| RawBufferAtomicFaddOp (value : Value) (c : Common).

(** The template parameter [Intrinsic]. *)
Inductive Intrinsic : Type :=
| ROCDL_RawBufferLoadOp
| ROCDL_RawBufferStoreOp
| ROCDL_RawBufferAtomicFAddOp.

Definition common (gpuOp : GpuOp) : Common :=
  match gpuOp with
  | RawBufferLoadOp c _ => c
  | RawBufferStoreOp _ c => c
  | RawBufferAtomicFaddOp _ c => c
  end.

(** [adaptor.getODSOperands(0)[0]]: the first operand, which is the memref
    of a load and the value of a store or an atomic add. *)
Definition getODSOperands0 (gpuOp : GpuOp) : Value :=
  match gpuOp with
  | RawBufferLoadOp c _ => getMemref c
  | RawBufferStoreOp value _ => value
  | RawBufferAtomicFaddOp value _ => value
  end.

(** The type of [gpuOp.getODSResults(0)[0]], where the operation has a
    result. *)
Definition getODSResults0Type (gpuOp : GpuOp) : option MlirType :=
  match gpuOp with
  | RawBufferLoadOp _ resultType => Some resultType
  | RawBufferStoreOp _ _ => None
  | RawBufferAtomicFaddOp _ _ => None
  end.

Definition getNumResults (gpuOp : GpuOp) : nat :=
  match gpuOp with
  | RawBufferLoadOp _ _ => 1
  | RawBufferStoreOp _ _ => 0
  | RawBufferAtomicFaddOp _ _ => 0
  end.

(** The instantiations of [populateAMDGPUToROCDLConversionPatterns]. *)
Definition intrinsicOf (gpuOp : GpuOp) : Intrinsic :=
  match gpuOp with
  | RawBufferLoadOp _ _ => ROCDL_RawBufferLoadOp
  | RawBufferStoreOp _ _ => ROCDL_RawBufferStoreOp
  | RawBufferAtomicFaddOp _ _ => ROCDL_RawBufferAtomicFAddOp
  end.

(** ** Results of the lowering *)

(** [LogicalResult] with the diagnostic of a failure.  The third case is a
    run whose behaviour C++ leaves undefined (an index past the end of
    [strides], a result the operation does not have). *)
Inductive Outcome (A : Type) : Type :=
| success (a : A)
| emitOpError (message : string)
| undefinedBehavior.

Arguments success {A} a.
Arguments emitOpError {A} message.
Arguments undefinedBehavior {A}.

Definition bind {A B : Type} (c : Outcome A) (k : A -> Outcome B) : Outcome B :=
  match c with
  | success a => k a
  | emitOpError message => emitOpError message
  | undefinedBehavior => undefinedBehavior
  end.

Notation "x <- c ;; k" := (bind c (fun x => k))
  (at level 61, c at next level, right associativity).

(** How the original operation is rewritten. *)
Inductive Rewrite : Type :=
| replaceOp (replacement : Value)
| eraseOp.

(** The created intrinsic call.  An argument is [None] where the C++
    [Value] pushed onto [args] is null. *)
Record Lowered : Type := mkLowered {
  intrinsic : Intrinsic;
  resultTypes : list MlirType;
  args : list (option Value);
  opRewrite : Rewrite
}.

(** ** The lowering *)

Definition createI32Constant (value : Z) : Value :=
  LLVM_ConstantOp i32 (to_int32 value).

Definition maxVectorOpWidth : N := 128.

(** [Twine(n)]: the decimal rendering of an unsigned number. *)
Definition Twine (n : N) : string := NilZero.string_of_uint (N.to_uint n).

Definition newline : string := String (ascii_of_nat 10) EmptyString.

(** Lines 73-95: the type [llvmBufferValType] of the value handed to the
    intrinsic.  [elemBits] and [totalBits] are [uint32_t]. *)
Definition llvmBufferValType (wantedDataType : MlirType) : Outcome MlirType :=
  let llvmWantedDataType := convertType wantedDataType in
  match wantedDataType with
  | VectorType shape elementType =>
      let elemBits := (getIntOrFloatBitWidth elementType mod 2 ^ 32)%N in
      let totalBits := ((elemBits * getNumElements shape) mod 2 ^ 32)%N in
      if (maxVectorOpWidth <? totalBits)%N then
        emitOpError
          (String.append "Total width of loads or stores must be no more than "
          (String.append (Twine maxVectorOpWidth)
          (String.append " bits, but we call for "
          (String.append (Twine totalBits)
             " bits. This should've been caught in validation"))))
      else if (elemBits <? 32)%N then
        if (32 <? totalBits)%N then
          if negb (totalBits mod 32 =? 0)%N then
            emitOpError
              (String.append
                 "Load or store of more than 32-bits that doesn't fit into words. Can't happen"
                 newline)
          else
            success (convertType
                       (VectorType [(totalBits / 32)%N] (IntegerType 32)))
        else
          success (convertType (ScalarTy (IntegerType totalBits)))
      else success llvmWantedDataType
  | _ => success llvmWantedDataType
  end.

Section RawBufferOpLowering.

(** [ShapedType::kDynamicSize] and [ShapedType::kDynamicStrideOrOffset],
    the markers of a dynamic dimension and of a dynamic stride or offset;
    they are declared outside this file. *)
Variable kDynamicSize : Z.
Variable kDynamicStrideOrOffset : Z.

Definition isDynamicStrideOrOffset (v : Z) : bool :=
  v =? kDynamicStrideOrOffset.

Definition hasStaticShape (t : MemRefType) : bool :=
  forallb (fun d => negb (d =? kDynamicSize)) (getShape t).

Definition getRank (t : MemRefType) : nat := List.length (getShape t).

(** [MemRefType::getNumElements] of a static shape. *)
Definition MemRefType_getNumElements (t : MemRefType) : Z :=
  fold_right Z.mul 1 (getShape t).

(** Line 66. *)
Definition elementByteWidth (t : MemRefType) : Z :=
  Z.of_N (getElementTypeBitWidth t / 8).

(** Lines 52-59: the data operand of a store, and the type the operation
    wants. *)
Definition storeData (gpuOp : GpuOp) : option Value :=
  let storeData := getODSOperands0 gpuOp in
  if Value_eq_dec storeData (getMemref (common gpuOp)) then None
  else Some storeData.

Definition wantedDataType (gpuOp : GpuOp) : Outcome MlirType :=
  match storeData gpuOp with
  | Some v => success (getType v)
  | None =>
      match getODSResults0Type gpuOp with
      | Some t => success t
      | None => undefinedBehavior
      end
  end.

(** Lines 97-106. *)
Definition storeArgs (storeData : option Value)
    (llvmBufferValType llvmWantedDataType : MlirType) : list (option Value) :=
  match storeData with
  | Some v =>
      if MlirType_eq_dec llvmBufferValType llvmWantedDataType then [Some v]
      else [Some (LLVM_BitcastOp llvmBufferValType v)]
  | None => []
  end.

(** Lines 130-135 and 140-144. *)
Definition ptrAsInt (memref : Value) : Value :=
  LLVM_PtrToIntOp (convertType i64) (MemRefDescriptor_alignedPtr memref).

Definition lowHalf (memref : Value) : Value :=
  LLVM_TruncOp (convertType i32) (ptrAsInt memref).

Definition highHalfTruncated (memref : Value) : Value :=
  let c32I64 := LLVM_ConstantOp (convertType i64) 32 in
  let highHalfShifted :=
    LLVM_TruncOp (convertType i32) (LLVM_LShrOp (ptrAsInt memref) c32I64) in
  LLVM_AndOp (convertType i32) highHalfShifted (createI32Constant 65535).

(** Lines 149-166. *)
Definition maxThisDim (memref byteWidthConst : Value) (i : nat) : Value :=
  let size := MemRefDescriptor_size memref i in
  let stride := MemRefDescriptor_stride memref i in
  let stride := LLVM_MulOp stride byteWidthConst in
  LLVM_MulOp size stride.

Definition maxIndexStep (memref byteWidthConst : Value)
    (maxIndex : option Value) (i : nat) : option Value :=
  Some match maxIndex with
       | Some m => LLVM_MaximumOp m (maxThisDim memref byteWidthConst i)
       | None => maxThisDim memref byteWidthConst i
       end.

Definition numRecords (t : MemRefType) (memref byteWidthConst : Value)
  : Outcome Value :=
  if hasStaticShape t then
    success (createI32Constant
               (to_int32 (to_int64 (MemRefType_getNumElements t
                                    * elementByteWidth t))))
  else
    match fold_left (maxIndexStep memref byteWidthConst)
                    (seq 0 (getRank t)) None with
    | Some maxIndex => success (LLVM_TruncOp (convertType i32) maxIndex)
    | None => undefinedBehavior
    end.

(** Lines 185-190; [word3] is a [uint32_t]. *)
Definition word3 (chipset : Chipset) (boundsCheck : bool) : Z :=
  let word3 := Z.lor (Z.shiftl 7 12) (Z.shiftl 4 15) in
  if majorVersion chipset =? 10 then
    let word3 := Z.lor word3 (Z.shiftl 1 24) in
    let oob := if boundsCheck then 3 else 2 in
    Z.lor word3 (to_uint32 (Z.shiftl oob 28))
  else word3.

(** Lines 122-195: the four words of the descriptor, inserted in turn. *)
Definition resource (chipset : Chipset) (c : Common) (numRecords : Value)
  : Value :=
  let llvm4xI32 := convertType (VectorType [4%N] (IntegerType 32)) in
  let memref := getMemref c in
  let resource := LLVM_UndefOp llvm4xI32 in
  let resource :=
    LLVM_InsertElementOp llvm4xI32 resource (lowHalf memref)
                         (createIndexConstant 0) in
  let resource :=
    LLVM_InsertElementOp llvm4xI32 resource (highHalfTruncated memref)
                         (createIndexConstant 1) in
  let resource :=
    LLVM_InsertElementOp llvm4xI32 resource numRecords
                         (createIndexConstant 2) in
  let word3Const := createI32Constant (word3 chipset (getBoundsCheck c)) in
  LLVM_InsertElementOp llvm4xI32 resource word3Const (createIndexConstant 3).

(** Lines 198-213: the loop over [llvm::enumerate(adaptor.getIndices())];
    [i] is the position of the head of [indices]. *)
Fixpoint voffsetLoop (strides : list Z) (elementByteWidth : Z)
    (memref byteWidthConst : Value) (i : nat) (indices : list Value)
    (voffset : option Value) : Outcome (option Value) :=
  match indices with
  | [] => success voffset
  | index :: rest =>
      match nth_error strides i with
      | None => undefinedBehavior
      | Some stride =>
          let strideOp :=
            if isDynamicStrideOrOffset stride then
              LLVM_MulOp (MemRefDescriptor_stride memref i) byteWidthConst
            else createI32Constant (to_int64 (stride * elementByteWidth)) in
          let index := LLVM_MulOp index strideOp in
          let voffset :=
            match voffset with
            | Some v => LLVM_AddOp v index
            | None => index
            end in
          voffsetLoop strides elementByteWidth memref byteWidthConst
                      (S i) rest (Some voffset)
      end
  end.

(** Lines 214-220. *)
Definition addIndexOffset (indexOffset : option Z) (elementByteWidth : Z)
    (voffset : option Value) : option Value :=
  match indexOffset with
  | Some off =>
      let indexOffset := to_int32 (to_int64 (off * elementByteWidth)) in
      let extraOffsetConst := createI32Constant indexOffset in
      Some match voffset with
           | Some v => LLVM_AddOp v extraOffsetConst
           | None => extraOffsetConst
           end
  | None => voffset
  end.

(** Lines 197-221: the [voffset] pushed onto [args]; it starts out null. *)
Definition voffset (c : Common) (strides : list Z) (byteWidthConst : Value)
  : Outcome (option Value) :=
  let elementByteWidth := elementByteWidth (memrefType c) in
  voffset <- voffsetLoop strides elementByteWidth (getMemref c)
                         byteWidthConst 0 (getIndices c) None ;;
  success (addIndexOffset (getIndexOffset c) elementByteWidth voffset).

(** Lines 223-231. *)
Definition sgprOffset (c : Common) (offset : Z) : Value :=
  let sgprOffset :=
    match getSgprOffset c with
    | Some v => v
    | None => createI32Constant 0
    end in
  if isDynamicStrideOrOffset offset then
    LLVM_AddOp (MemRefDescriptor_offset (getMemref c)) sgprOffset
  else if 0 <? offset then
    LLVM_AddOp sgprOffset (createI32Constant offset)
  else sgprOffset.

(** Lines 239-252. *)
Definition rewriteOp (gpuOp : GpuOp)
    (llvmBufferValType llvmWantedDataType : MlirType) : Rewrite :=
  if Nat.eqb (getNumResults gpuOp) 1 then
    let replacement := IntrinsicResult llvmBufferValType in
    if MlirType_eq_dec llvmBufferValType llvmWantedDataType then
      replaceOp replacement
    else replaceOp (LLVM_BitcastOp llvmWantedDataType replacement)
  else eraseOp.

(** [RawBufferOpLowering::matchAndRewrite]. *)
Definition matchAndRewrite (chipset : Chipset) (gpuOp : GpuOp)
  : Outcome Lowered :=
  let c := common gpuOp in
  let memref := getMemref c in
  if majorVersion chipset <? 9 then
    emitOpError "Raw buffer ops require GCN or higher"
  else
    wantedDataType <- wantedDataType gpuOp ;;
    let llvmWantedDataType := convertType wantedDataType in
    let byteWidthConst := createI32Constant (elementByteWidth (memrefType c)) in
    llvmBufferValType <- llvmBufferValType wantedDataType ;;
    let args := storeArgs (storeData gpuOp) llvmBufferValType
                          llvmWantedDataType in
    match stridesAndOffset (memrefType c) with
    | None => emitOpError "Can't lower non-stride-offset memrefs"
    | Some (strides, offset) =>
        numRecords <- numRecords (memrefType c) memref byteWidthConst ;;
        let args := args ++ [Some (resource chipset c numRecords)] in
        voffset <- voffset c strides byteWidthConst ;;
        let args := args ++ [voffset] in
        let args := args ++ [Some (sgprOffset c offset)] in
        let args := args ++ [Some (createI32Constant 0)] in
        success {| intrinsic := intrinsicOf gpuOp;
                   resultTypes := repeat llvmBufferValType
                                         (getNumResults gpuOp);
                   args := args;
                   opRewrite := rewriteOp gpuOp llvmBufferValType
                                          llvmWantedDataType |}
    end.

End RawBufferOpLowering.

(** ** Reading the created intrinsic call *)

(** The argument [k] places before the end of [args]: the flags word is at
    0, [sgprOffset] at 1, [voffset] at 2 and the descriptor at 3, whether
    or not a data operand comes first. *)
Definition argFromEnd (k : nat) (l : Lowered) : option (option Value) :=
  nth_error (rev (args l)) k.

Definition auxArg : Lowered -> option (option Value) := argFromEnd 0.
Definition sgprOffsetArg : Lowered -> option (option Value) := argFromEnd 1.
Definition voffsetArg : Lowered -> option (option Value) := argFromEnd 2.
Definition resourceArg : Lowered -> option (option Value) := argFromEnd 3.

(** The arguments before the descriptor: the data operand, if any. *)
Definition dataArgs (l : Lowered) : list (option Value) :=
  rev (skipn 4 (rev (args l))).

(** The element last inserted at position [n] of a vector value. *)
Fixpoint insertedAt (n : Z) (v : Value) : option Value :=
  match v with
  | LLVM_InsertElementOp _ vector element (createIndexConstant k) =>
      if k =? n then Some element else insertedAt n vector
  | _ => None
  end.

(** Word [n] of the descriptor passed to the intrinsic. *)
Definition descriptorWord (n : Z) (l : Lowered) : option Value :=
  match resourceArg l with
  | Some (Some r) => insertedAt n r
  | _ => None
  end.

(** ** Meaning of the emitted scalar instructions *)

(** The run-time state the emitted instructions read: the scalar operands
    and the fields of the memref descriptor. *)
Record Env : Type := mkEnv {
  operandValue : nat -> Z;
  alignedPtrValue : Z;
  sizeValue : nat -> Z;
  strideValue : nat -> Z;
  offsetValue : Z
}.

Definition intWidth (t : MlirType) : option Z :=
  match t with
  | ScalarTy (IntegerType w) => Some (Z.of_N w)
  | _ => None
  end.

Definition lift1 (f : Z -> Z) (a : option Z) : option Z :=
  match a with
  | Some x => Some (f x)
  | None => None
  end.

Definition lift2 (f : Z -> Z -> Z) (a b : option Z) : option Z :=
  match a, b with
  | Some x, Some y => Some (f x y)
  | _, _ => None
  end.

Definition MlirType_eqb (a b : MlirType) : bool :=
  if MlirType_eq_dec a b then true else false.

(** An arithmetic operation of the LLVM dialect has operands and result of
    one integer type: it computes in the width of that type, and has no
    value where the types of its operands differ. *)
Definition binop (f : Z -> Z -> Z) (ta tb : MlirType) (a b : option Z)
  : option Z :=
  if MlirType_eqb ta tb then lift2 wrap (intWidth ta) (lift2 f a b)
  else None.

(** The integer computed by a scalar value, as the unsigned content of a
    register of the width of its type.  Only well-typed integer operations
    have a value: a [ptrtoint] takes a pointer, a [trunc] goes to a
    narrower type, the operands of [lshr], [and], [mul] and [add] have the
    type of the result, and a logical shift is by less than the width.
    [LLVM_MaximumOp] is the floating-point [llvm.intr.maximum] and has no
    integer value, and neither have the values that are not integers. *)
Fixpoint eval (rho : Env) (v : Value) : option Z :=
  match v with
  | Operand id ty =>
      lift1 (fun w => wrap w (operandValue rho id)) (intWidth ty)
  | LLVM_ConstantOp ty c => lift1 (fun w => wrap w c) (intWidth ty)
  | MemRefDescriptor_alignedPtr _ => Some (wrap 64 (alignedPtrValue rho))
  | MemRefDescriptor_size _ i => Some (wrap 64 (sizeValue rho i))
  | MemRefDescriptor_stride _ i => Some (wrap 64 (strideValue rho i))
  | MemRefDescriptor_offset _ => Some (wrap 64 (offsetValue rho))
  | createIndexConstant c => Some (wrap 64 c)
  | LLVM_PtrToIntOp ty a =>
      if MlirType_eqb (getType a) LLVMPointerType then
        lift2 wrap (intWidth ty) (eval rho a)
      else None
  | LLVM_TruncOp ty a =>
      match intWidth ty, intWidth (getType a), eval rho a with
      | Some w, Some wa, Some x => if w <? wa then Some (wrap w x) else None
      | _, _, _ => None
      end
  | LLVM_LShrOp a b =>
      if MlirType_eqb (getType a) (getType b) then
        match intWidth (getType a), eval rho a, eval rho b with
        | Some w, Some x, Some s =>
            if s <? w then Some (Z.shiftr x s) else None
        | _, _, _ => None
        end
      else None
  | LLVM_AndOp ty a b =>
      if MlirType_eqb (getType a) ty then
        binop Z.land ty (getType b) (eval rho a) (eval rho b)
      else None
  | LLVM_MulOp a b =>
      binop Z.mul (getType a) (getType b) (eval rho a) (eval rho b)
  | LLVM_AddOp a b =>
      binop Z.add (getType a) (getType b) (eval rho a) (eval rho b)
  | _ => None
  end.

(** ** Meaning of the data path *)

(** A data value is the list of its lanes, each the unsigned content of one
    element; a scalar has one lane. *)
Definition laneBits (t : MlirType) : Z :=
  match t with
  | ScalarTy s => Z.of_N (getIntOrFloatBitWidth s)
  | VectorType _ elementType => Z.of_N (getIntOrFloatBitWidth elementType)
  | _ => 0
  end.

Definition laneCount (t : MlirType) : N :=
  match t with
  | ScalarTy _ => 1
  | VectorType shape _ => getNumElements shape
  | _ => 0
  end%N.

Definition sizeInBits (t : MlirType) : Z := laneBits t * Z.of_N (laneCount t).

Definition hasType (t : MlirType) (lanes : list Z) : Prop :=
  List.length lanes = N.to_nat (laneCount t)
  /\ Forall (fun x => 0 <= x < 2 ^ laneBits t) lanes.

(** The bit pattern of a list of [b]-bit lanes, lane 0 in the low bits. *)
Fixpoint pack (b : Z) (lanes : list Z) : Z :=
  match lanes with
  | [] => 0
  | x :: rest => x mod 2 ^ b + 2 ^ b * pack b rest
  end.

(** The [n] lanes of [b] bits of a bit pattern. *)
Fixpoint unpack (b : Z) (n : nat) (bits : Z) : list Z :=
  match n with
  | O => []
  | S n' => bits mod 2 ^ b :: unpack b n' (bits / 2 ^ b)
  end.

(** [llvm.bitcast]: the same bits read at another type of the same size;
    there is no bitcast between types of different sizes. *)
Definition bitcast (from to : MlirType) (lanes : list Z) : option (list Z) :=
  if sizeInBits from =? sizeInBits to then
    Some (unpack (laneBits to) (N.to_nat (laneCount to))
                 (pack (laneBits from) lanes))
  else None.

(** The lanes of a value of the data path: an operand, the result of the
    intrinsic (the lanes [loaded] from the buffer), or a bitcast. *)
Fixpoint evalData (operandLanes : nat -> list Z) (loaded : list Z)
    (v : Value) : option (list Z) :=
  match v with
  | Operand id _ => Some (operandLanes id)
  | IntrinsicResult _ => Some loaded
  | LLVM_BitcastOp ty a =>
      match evalData operandLanes loaded a with
      | Some lanes => bitcast (getType a) ty lanes
      | None => None
      end
  | _ => None
  end.

(** ** The statements of the specification *)

(** The base byte offset of the specification (section 3).
    [getStridesAndOffset] counts the strides and the offset in elements
    (lines 203-208 scale its strides to bytes with the element byte
    width), so the byte offset is the offset times the element byte
    width. *)
Definition spec_baseByteOffset (t : MemRefType) (offset : Z) : Z :=
  offset * Z.of_N (getElementTypeBitWidth t / 8).


(** The wire type of the specification (section 4.2), [None] where the
    lowering is to fail; [total] is the product [N*B]. *)
Definition spec_wireType (t : MlirType) : option MlirType :=
  match t with
  | VectorType shape elementType =>
      let B := getIntOrFloatBitWidth elementType in
      let total := (getNumElements shape * B)%N in
      if (128 <? total)%N then None
      else if (32 <=? B)%N then Some t
      else if (total <=? 32)%N then Some (ScalarTy (IntegerType total))
      else if (total mod 32 =? 0)%N then
        Some (VectorType [(total / 32)%N] (IntegerType 32))
      else None
  | _ => Some t
  end.

(** The same policy with [B] and [total] held in 32 bits. *)
Definition wireType32 (t : MlirType) : option MlirType :=
  match t with
  | VectorType shape elementType =>
      let B := (getIntOrFloatBitWidth elementType mod 2 ^ 32)%N in
      let total := ((getNumElements shape * B) mod 2 ^ 32)%N in
      if (128 <? total)%N then None
      else if (32 <=? B)%N then Some t
      else if (total <=? 32)%N then Some (ScalarTy (IntegerType total))
      else if (total mod 32 =? 0)%N then
        Some (VectorType [(total / 32)%N] (IntegerType 32))
      else None
  | _ => Some t
  end.

(** The element width and the total width of a vector type fit in the
    [uint32_t] that holds them at lines 75-76; every other type does. *)
Definition fitsUint32 (t : MlirType) : Prop :=
  match t with
  | VectorType shape elementType =>
      (getIntOrFloatBitWidth elementType < 2 ^ 32)%N
      /\ (getNumElements shape * getIntOrFloatBitWidth elementType
          < 2 ^ 32)%N
  | _ => True
  end.

(** The type a lowering step produced, if it produced one. *)
Definition produced {A : Type} (o : Outcome A) : option A :=
  match o with
  | success a => Some a
  | _ => None
  end.

Definition isVectorType (t : MlirType) : bool :=
  match t with
  | VectorType _ _ => true
  | _ => false
  end.

(** The field of [n] bits of [w] that starts at bit [lo]. *)
Definition bitField (w lo n : Z) : Z := Z.land (Z.shiftr w lo) (Z.ones n).

(** The static stride of dimension [i]. *)
Definition strideAt (strides : list Z) (i : nat) : Z :=
  match nth_error strides i with
  | Some stride => stride
  | None => 0
  end.

(** The sum of index * (stride * element byte width) over the dimensions
    from [i] on, [xs] being the values of the indices of these
    dimensions. *)
Fixpoint indexTerms (strides : list Z) (elementByteWidth : Z) (i : nat)
    (xs : list Z) : Z :=
  match xs with
  | [] => 0
  | x :: rest =>
      x * (strideAt strides i * elementByteWidth)
      + indexTerms strides elementByteWidth (S i) rest
  end.

(** No stride of the layout is dynamic. *)
Definition staticStrides (kDynamicStrideOrOffset : Z) (strides : list Z)
  : Prop :=
  Forall (fun stride => stride <> kDynamicStrideOrOffset) strides.

(** What the extra index offset adds. *)
Definition extraTerm (indexOffset : option Z) (elementByteWidth : Z) : Z :=
  match indexOffset with
  | Some off => off * elementByteWidth
  | None => 0
  end.

(** A 32-bit value that computes [x]. *)
Definition computes32 (rho : Env) (v : Value) (x : Z) : Prop :=
  getType v = i32 /\ eval rho v = Some (wrap 32 x).

(** A partial sum [voffset]: null while nothing has contributed. *)
Definition partialSum (rho : Env) (voffset : option Value) (x : Z) : Prop :=
  match voffset with
  | Some v => computes32 rho v x
  | None => x = 0
  end.

(** ** Worked inputs *)

Module Examples.

(** The markers as [ShapedType] declares them. *)
Definition kDynamicSize : Z := -1.
Definition kDynamicStrideOrOffset : Z := - 2 ^ 63.

Definition lower : Chipset -> GpuOp -> Outcome Lowered :=
  matchAndRewrite kDynamicSize kDynamicStrideOrOffset.

Definition gfx803 : Chipset := mkChipset 8 3.
Definition gfx908 : Chipset := mkChipset 9 8.
Definition gfx1030 : Chipset := mkChipset 10 48.

Definition buf : Value := Operand 0 MemRefDescriptorType.
Definition idx (n : nat) : Value := Operand n i32.

Definition f32 : MlirType := ScalarTy (FloatType F32).
Definition v4i8 : MlirType := VectorType [4%N] (IntegerType 8).

(** memref<4x8xf32>, strides [8, 1], offset 0. *)
Definition memref_4x8xf32 : MemRefType :=
  mkMemRefType [4; 8] 32 (Some ([8; 1], 0)).


(** memref<f32>: rank 0. *)
Definition memref_f32 : MemRefType := mkMemRefType [] 32 (Some ([], 0)).


(** memref<16xf32>, strides [1], offset 4 (elements). *)
Definition memref_16xf32_offset4 : MemRefType :=
  mkMemRefType [16] 32 (Some ([1], 4)).

(** memref<16xi12>, strides [1], offset 0. *)
Definition memref_16xi12 : MemRefType :=
  mkMemRefType [16] 12 (Some ([1], 0)).

(** memref<16xi8>, strides [1], offset 0. *)
Definition memref_16xi8 : MemRefType := mkMemRefType [16] 8 (Some ([1], 0)).

(** memref<16xi4>, strides [1], offset 0. *)
Definition memref_16xi4 : MemRefType := mkMemRefType [16] 4 (Some ([1], 0)).

Definition load_4x8 : GpuOp :=
  RawBufferLoadOp (mkCommon buf memref_4x8xf32 [idx 1; idx 2] true None None)
                  f32.


Definition load_rank0 : GpuOp :=
  RawBufferLoadOp (mkCommon buf memref_f32 [] true None None) f32.


Definition load_offset4 : GpuOp :=
  RawBufferLoadOp (mkCommon buf memref_16xf32_offset4 [idx 1] true None None)
                  f32.

Definition load_i12 : GpuOp :=
  RawBufferLoadOp
    (mkCommon buf memref_16xi12 [idx 1] true (Some 3) None)
    (ScalarTy (IntegerType 12)).

Definition load_v4i8 : GpuOp :=
  RawBufferLoadOp (mkCommon buf memref_16xi8 [idx 1] true None None) v4i8.

Definition store_v4i8 : GpuOp :=
  RawBufferStoreOp (Operand 7 v4i8)
                   (mkCommon buf memref_16xi8 [idx 1] true None None).

Definition load_i4 : GpuOp :=
  RawBufferLoadOp
    (mkCommon buf memref_16xi4 [idx 1] true (Some 3) None)
    (ScalarTy (IntegerType 4)).

Definition load_i256 : GpuOp :=
  RawBufferLoadOp (mkCommon buf memref_16xi8 [idx 1] true None None)
                  (ScalarTy (IntegerType 256)).

(** The access [2, 3] into memref<4x8xf32>, with constant indices. *)
Definition load_4x8_at_2_3 : GpuOp :=
  RawBufferLoadOp
    (mkCommon buf memref_4x8xf32
              [LLVM_ConstantOp i32 2; LLVM_ConstantOp i32 3] true None None)
    f32.

Definition noLowered : Lowered :=
  mkLowered ROCDL_RawBufferLoadOp [] [] eraseOp.

(** The call a lowering created, [noLowered] if it created none. *)
Definition lowered (o : Outcome Lowered) : Lowered :=
  match o with
  | success l => l
  | _ => noLowered
  end.

Definition env0 : Env :=
  mkEnv (fun n => Z.of_nat n + 1) 1311768467463790320
        (fun i => 5 + Z.of_nat i) (fun i => 8 - Z.of_nat i) 0.

End Examples.

(** * The other patterns *)

(** ** The barrier *)




(** ** The pattern set *)







Definition mapOutcome {A B : Type} (f : A -> B) (o : Outcome A) : Outcome B :=
  match o with
  | success a => success (f a)
  | emitOpError message => emitOpError message
  | undefinedBehavior => undefinedBehavior
  end.

(** The call of [l] with the intrinsic [intr] of the pattern instance that
    created it (line 241). *)
Definition withIntrinsic (intr : Intrinsic) (l : Lowered) : Lowered :=
  {| intrinsic := intr;
     resultTypes := resultTypes l;
     args := args l;
     opRewrite := opRewrite l |}.




(** ** Further statements about the lowering *)

(** The operation with its bounds-check attribute set to [b]. *)
Definition setBoundsCheck (b : bool) (gpuOp : GpuOp) : GpuOp :=
  let set c :=
    mkCommon (getMemref c) (memrefType c) (getIndices c) b
             (getIndexOffset c) (getSgprOffset c) in
  match gpuOp with
  | RawBufferLoadOp c resultType => RawBufferLoadOp (set c) resultType
  | RawBufferStoreOp value c => RawBufferStoreOp value (set c)
  | RawBufferAtomicFaddOp value c => RawBufferAtomicFaddOp value (set c)
  end.

(** An element narrower than 32 bits, as line 83 tests it. *)
Definition narrowElement (elementType : ScalarType) : bool :=
  (getIntOrFloatBitWidth elementType mod 2 ^ 32 <? 32)%N.

(** The types whose elements the lowering repacks: vectors of narrow
    elements. *)
Definition repacked (t : MlirType) : bool :=
  match t with
  | VectorType _ elementType => narrowElement elementType
  | _ => false
  end.

(** The wire types a repacked vector can get: an integer of at most
    32 bits, or two to four 32-bit integers. *)
Definition packedWireType (t : MlirType) : Prop :=
  (exists k, t = ScalarTy (IntegerType k) /\ (k <= 32)%N)
  \/ (exists k, t = VectorType [k] (IntegerType 32) /\ (2 <= k <= 4)%N).

(** The diagnostics of lines 78-82 and 86-87. *)
Definition oversizedMessage (totalBits : N) : string :=
  String.append "Total width of loads or stores must be no more than "
  (String.append "128"
  (String.append " bits, but we call for "
  (String.append (Twine totalBits)
     " bits. This should've been caught in validation"))).

Definition misalignedMessage : string :=
  String.append
    "Load or store of more than 32-bits that doesn't fit into words. Can't happen"
    newline.

Module MoreExamples.

Import Examples.

Definition v4f32 : MlirType := VectorType [4%N] (FloatType F32).
Definition v5f32 : MlirType := VectorType [5%N] (FloatType F32).
Definition v3i16 : MlirType := VectorType [3%N] (IntegerType 16).
Definition v8f16 : MlirType := VectorType [8%N] (FloatType F16).

Definition common_16xi8 : Common :=
  mkCommon buf memref_16xi8 [idx 1] true None None.

Definition load_v5f32 : GpuOp := RawBufferLoadOp common_16xi8 v5f32.
Definition load_v3i16 : GpuOp := RawBufferLoadOp common_16xi8 v3i16.
Definition store_v8f16 : GpuOp :=
  RawBufferStoreOp (Operand 7 v8f16) common_16xi8.
Definition store_v4f32 : GpuOp :=
  RawBufferStoreOp (Operand 7 v4f32) common_16xi8.
Definition store_f32 : GpuOp :=
  RawBufferStoreOp (Operand 7 f32)
                   (mkCommon buf memref_4x8xf32 [idx 1; idx 2]
                             true None None).

(** A memref whose layout has no strided form. *)
Definition memref_unstrided : MemRefType := mkMemRefType [16] 32 None.

Definition load_unstrided : GpuOp :=
  RawBufferLoadOp (mkCommon buf memref_unstrided [idx 1] true None None) f32.

(** An access with two indices into a memref of rank 1. *)
Definition load_two_indices : GpuOp :=
  RawBufferLoadOp (mkCommon buf memref_16xi8 [idx 1; idx 2] true None None)
                  f32.

End MoreExamples.

(** * Properties *)

(** ** Machine integers *)

Lemma to_int32_mod (x : Z) : to_int32 x mod 2 ^ 32 = x mod 2 ^ 32.
Proof.
  unfold to_int32.
  rewrite Zminus_mod_idemp_l.
  f_equal; lia.
Qed.

Lemma wrap32_to_int32 (x : Z) : wrap 32 (to_int32 x) = wrap 32 x.
Proof. apply to_int32_mod. Qed.

Lemma to_int32_small (x : Z) : - 2 ^ 31 <= x < 2 ^ 31 -> to_int32 x = x.
Proof.
  intros H; unfold to_int32.
  rewrite Z.mod_small; lia.
Qed.

Lemma to_int32_range (x : Z) : - 2 ^ 31 <= to_int32 x < 2 ^ 31.
Proof.
  unfold to_int32.
  pose proof (Z.mod_pos_bound (x + 2 ^ 31) (2 ^ 32) ltac:(lia)); lia.
Qed.

Lemma to_int32_idem (x : Z) : to_int32 (to_int32 x) = to_int32 x.
Proof. apply to_int32_small, to_int32_range. Qed.

Lemma to_int32_to_int64 (x : Z) : to_int32 (to_int64 x) = to_int32 x.
Proof.
  unfold to_int32, to_int64.
  f_equal.
  rewrite (Z.mod_eq (x + 2 ^ 63) (2 ^ 64)) by lia.
  replace (x + 2 ^ 63 - 2 ^ 64 * ((x + 2 ^ 63) / 2 ^ 64) - 2 ^ 63 + 2 ^ 31)
    with (x + 2 ^ 31 + (- 2 ^ 32 * ((x + 2 ^ 63) / 2 ^ 64)) * 2 ^ 32) by lia.
  apply Z_mod_plus_full.
Qed.

Lemma wrap_idem (w x : Z) : wrap w (wrap w x) = wrap w x.
Proof.
  unfold wrap.
  destruct (Z.eq_dec (2 ^ w) 0) as [E | E].
  - rewrite E, !Z.mod_0_r; reflexivity.
  - apply Z.mod_mod; assumption.
Qed.

Lemma wrap_range (w x : Z) : 0 <= w -> 0 <= wrap w x < 2 ^ w.
Proof.
  intros H; unfold wrap.
  apply Z.mod_pos_bound, Z.pow_pos_nonneg; lia.
Qed.

Lemma wrap_small (w x : Z) : 0 <= x < 2 ^ w -> wrap w x = x.
Proof. intros H; unfold wrap; apply Z.mod_small; assumption. Qed.

Lemma wrap32_add (a b : Z) : wrap 32 (wrap 32 a + wrap 32 b) = wrap 32 (a + b).
Proof. unfold wrap; symmetry; apply Z.add_mod; lia. Qed.

Lemma wrap32_mul_r (a b : Z) : wrap 32 (a * wrap 32 b) = wrap 32 (a * b).
Proof. unfold wrap; apply Z.mul_mod_idemp_r; lia. Qed.

Lemma wrap32_mul (a b c d : Z) :
  wrap 32 a = wrap 32 c -> wrap 32 b = wrap 32 d ->
  wrap 32 (a * b) = wrap 32 (c * d).
Proof.
  unfold wrap; intros Ha Hb.
  rewrite (Z.mul_mod a b), (Z.mul_mod c d), Ha, Hb by lia.
  reflexivity.
Qed.

Lemma wrap32_wrap64 (a : Z) : wrap 32 (wrap 64 a) = wrap 32 a.
Proof.
  unfold wrap; apply Z.mod_mod_divide.
  exists (2 ^ 32); lia.
Qed.

Lemma wrap32_to_int64 (a : Z) : wrap 32 (to_int64 a) = wrap 32 a.
Proof.
  rewrite <- wrap32_to_int32, to_int32_to_int64.
  apply wrap32_to_int32.
Qed.

Lemma MlirType_eqb_refl (t : MlirType) : MlirType_eqb t t = true.
Proof.
  unfold MlirType_eqb.
  destruct (MlirType_eq_dec t t); [reflexivity | contradiction].
Qed.

Lemma MlirType_eqb_eq (a b : MlirType) : MlirType_eqb a b = true <-> a = b.
Proof.
  unfold MlirType_eqb.
  destruct (MlirType_eq_dec a b); split; congruence.
Qed.

Create Rewrite HintDb wrap32.

#[local] Hint Rewrite wrap32_to_int32 wrap32_to_int64 wrap32_wrap64 wrap_idem
  : wrap32.

(** ** Evaluation of constants *)

Lemma eval_createI32Constant (rho : Env) (c : Z) :
  eval rho (createI32Constant c) = Some (wrap 32 c).
Proof.
  unfold createI32Constant; cbn.
  change (Z.pos 32) with 32.
  rewrite wrap32_to_int32; reflexivity.
Qed.

(** ** The shape of a successful lowering *)

Section Lowering.

Variable kDynamicSize : Z.
Variable kDynamicStrideOrOffset : Z.

Let lower := matchAndRewrite kDynamicSize kDynamicStrideOrOffset.

(** A lowering that succeeded passed the chipset gate, resolved the wire
    type, found the strides and the offset, and built the call out of the
    pieces below. *)
Lemma matchAndRewrite_success (chipset : Chipset) (gpuOp : GpuOp)
    (l : Lowered) :
  lower chipset gpuOp = success l ->
  let c := common gpuOp in
  let byteWidthConst := createI32Constant (elementByteWidth (memrefType c)) in
  exists wanted wire strides offset nr vo,
    9 <= majorVersion chipset
    /\ wantedDataType gpuOp = success wanted
    /\ llvmBufferValType wanted = success wire
    /\ stridesAndOffset (memrefType c) = Some (strides, offset)
    /\ numRecords kDynamicSize (memrefType c) (getMemref c) byteWidthConst
       = success nr
    /\ voffset kDynamicStrideOrOffset c strides byteWidthConst = success vo
    /\ l = {| intrinsic := intrinsicOf gpuOp;
              resultTypes := repeat wire (getNumResults gpuOp);
              args := storeArgs (storeData gpuOp) wire (convertType wanted)
                      ++ [Some (resource chipset c nr); vo;
                          Some (sgprOffset kDynamicStrideOrOffset c offset);
                          Some (createI32Constant 0)];
              opRewrite := rewriteOp gpuOp wire (convertType wanted) |}.
Proof.
  intros H c byteWidthConst; subst c byteWidthConst.
  unfold lower, matchAndRewrite in H.
  destruct (majorVersion chipset <? 9) eqn:Hgate; [discriminate |].
  apply Z.ltb_ge in Hgate.
  destruct (wantedDataType gpuOp) as [wanted | |] eqn:Hwanted;
    try discriminate.
  cbn [bind] in H.
  destruct (llvmBufferValType wanted) as [wire | |] eqn:Hwire;
    try discriminate.
  cbn [bind] in H.
  destruct (stridesAndOffset (memrefType (common gpuOp)))
    as [[strides offset] |] eqn:Hlayout; try discriminate.
  destruct (numRecords _ _ _ _) as [nr | |] eqn:Hnr; try discriminate.
  cbn [bind] in H.
  destruct (voffset _ _ _ _) as [vo | |] eqn:Hvo; try discriminate.
  cbn [bind] in H.
  injection H as <-.
  exists wanted, wire, strides, offset, nr, vo.
  repeat split; try assumption.
  rewrite <- !app_assoc; reflexivity.
Qed.

(** The four trailing arguments of a created call. *)
Lemma argFromEnd_args (i : Intrinsic) (tys : list MlirType)
    (data : list (option Value)) (r v s a : option Value) (rw : Rewrite) :
  let l := mkLowered i tys (data ++ [r; v; s; a]) rw in
  resourceArg l = Some r /\ voffsetArg l = Some v
  /\ sgprOffsetArg l = Some s /\ auxArg l = Some a /\ dataArgs l = data.
Proof.
  unfold resourceArg, voffsetArg, sgprOffsetArg, auxArg, dataArgs, argFromEnd.
  cbn [args].
  rewrite rev_app_distr; cbn.
  rewrite rev_involutive; auto.
Qed.

End Lowering.

(** Reads the arguments of the call in the goal off its [args]. *)
Ltac lowered_args :=
  match goal with
  | |- context [mkLowered ?i ?tys (?data ++ [?r; ?v; ?s; ?a]) ?rw] =>
      let Hr := fresh "Hresource" in
      let Hv := fresh "Hvoffset" in
      let Hs := fresh "Hsgpr" in
      let Ha := fresh "Haux" in
      let Hd := fresh "Hdata" in
      destruct (argFromEnd_args i tys data r v s a rw)
        as (Hr & Hv & Hs & Ha & Hd);
      rewrite ?Hr, ?Hv, ?Hs, ?Ha, ?Hd;
      clear Hr Hv Hs Ha Hd
  end.

(** The static scenario of the specification: shape [4, 8] of 32-bit
    elements, strides [8, 1], offset 0, accessed at [2, 3], has a record
    count of 128 bytes, a [voffset] of 76 and an [sgprOffset] of 0. *)
Example static_shape_scenario :
  let l := Examples.lowered
             (Examples.lower Examples.gfx908 Examples.load_4x8_at_2_3) in
  Examples.lower Examples.gfx908 Examples.load_4x8_at_2_3 = success l
  /\ descriptorWord 2 l = Some (LLVM_ConstantOp i32 128)
  /\ (exists v, voffsetArg l = Some (Some v)
                /\ eval Examples.env0 v = Some 76)
  /\ (exists v, sgprOffsetArg l = Some (Some v)
                /\ eval Examples.env0 v = Some 0).
Proof.
  cbv zeta.
  split; [reflexivity |].
  split; [reflexivity |].
  split; eexists; split; reflexivity.
Qed.

(** ** The chipset gate *)

Section ChipsetGate.

Variable kDynamicSize : Z.
Variable kDynamicStrideOrOffset : Z.

Let lower := matchAndRewrite kDynamicSize kDynamicStrideOrOffset.

(** C7.  On a chipset whose major version is below 9, the lowering of every
    raw buffer operation, be it a load, a store or an atomic add, fails
    with the diagnostic "Raw buffer ops require GCN or higher", whatever
    the type, the shape and the indices of the operation. *)
Theorem unsupported_chipset_fails (chipset : Chipset) (gpuOp : GpuOp) :
  majorVersion chipset < 9 ->
  lower chipset gpuOp = emitOpError "Raw buffer ops require GCN or higher".
Proof.
  intros H; unfold lower, matchAndRewrite.
  apply Z.ltb_lt in H; rewrite H; reflexivity.
Qed.

End ChipsetGate.

Lemma unsupported_chipset_fails_witness :
  majorVersion Examples.gfx803 < 9
  /\ Examples.lower Examples.gfx803 Examples.store_v4i8
     = emitOpError "Raw buffer ops require GCN or higher".
Proof.
  split.
  - reflexivity.
  - apply (unsupported_chipset_fails Examples.kDynamicSize
             Examples.kDynamicStrideOrOffset Examples.gfx803
             Examples.store_v4i8).
    reflexivity.
Defined.

(** ** The descriptor *)

Section Descriptor.

Variable kDynamicSize : Z.
Variable kDynamicStrideOrOffset : Z.

Let lower := matchAndRewrite kDynamicSize kDynamicStrideOrOffset.

Lemma descriptorWord_lowered (chipset : Chipset) (gpuOp : GpuOp)
    (l : Lowered) :
  lower chipset gpuOp = success l ->
  exists nr,
    numRecords kDynamicSize (memrefType (common gpuOp))
               (getMemref (common gpuOp))
               (createI32Constant (elementByteWidth (memrefType (common gpuOp))))
    = success nr
    /\ descriptorWord 0 l = Some (lowHalf (getMemref (common gpuOp)))
    /\ descriptorWord 1 l = Some (highHalfTruncated (getMemref (common gpuOp)))
    /\ descriptorWord 2 l = Some nr
    /\ descriptorWord 3 l
       = Some (createI32Constant
                 (word3 chipset (getBoundsCheck (common gpuOp)))).
Proof.
  intros H.
  destruct (matchAndRewrite_success _ _ _ _ _ H)
    as (wanted & wire & strides & offset & nr & vo
        & _ & _ & _ & _ & Hnr & _ & ->).
  exists nr; split; [exact Hnr |].
  unfold descriptorWord.
  lowered_args.
  repeat split; reflexivity.
Qed.

Lemma word3_fits (chipset : Chipset) (boundsCheck : bool) :
  to_int32 (word3 chipset boundsCheck) = word3 chipset boundsCheck.
Proof.
  unfold word3.
  destruct (majorVersion chipset =? 10), boundsCheck; reflexivity.
Qed.

(** C4.  Word 3 of the descriptor is a constant with 7 in bits 12-14 and 4
    in bits 15-18.  On a chipset of major version 10 it has bit 24 set and
    bits 28-29 hold 3 when the operation asks for bounds checking and 2
    when it does not; on every other chipset that lowers, bit 24 and bits
    28-29 are zero whatever the operation asks for. *)
Theorem word3_layout (chipset : Chipset) (gpuOp : GpuOp) (l : Lowered) :
  lower chipset gpuOp = success l ->
  let boundsCheck := getBoundsCheck (common gpuOp) in
  exists w,
    descriptorWord 3 l = Some (LLVM_ConstantOp i32 w)
    /\ bitField w 12 3 = 7
    /\ bitField w 15 4 = 4
    /\ (majorVersion chipset = 10 ->
        Z.testbit w 24 = true
        /\ bitField w 28 2 = (if boundsCheck then 3 else 2))
    /\ (majorVersion chipset <> 10 ->
        Z.testbit w 24 = false /\ bitField w 28 2 = 0).
Proof.
  intros H boundsCheck.
  destruct (descriptorWord_lowered _ _ _ H) as (nr & _ & _ & _ & _ & H3).
  exists (word3 chipset boundsCheck).
  split.
  - rewrite H3; unfold createI32Constant.
    rewrite word3_fits; reflexivity.
  - subst boundsCheck; unfold word3.
    destruct (majorVersion chipset =? 10) eqn:Hgen.
    + apply Z.eqb_eq in Hgen.
      split; [| split; [| split]].
      * destruct (getBoundsCheck (common gpuOp)); reflexivity.
      * destruct (getBoundsCheck (common gpuOp)); reflexivity.
      * intros _.
        destruct (getBoundsCheck (common gpuOp)); split; reflexivity.
      * intros Hne; contradiction.
    + apply Z.eqb_neq in Hgen.
      split; [| split; [| split]]; try reflexivity.
      * intros Heq; contradiction.
      * intros _; split; reflexivity.
Qed.

Lemma eval_highHalfTruncated (rho : Env) (memref : Value) :
  eval rho (highHalfTruncated memref)
  = Some (Z.land (wrap 32 (Z.shiftr (wrap 64 (alignedPtrValue rho)) 32))
                 0x0000FFFF).
Proof.
  unfold highHalfTruncated, ptrAsInt, createI32Constant, convertType.
  cbn [eval getType]; unfold binop.
  rewrite !MlirType_eqb_refl.
  cbn [intWidth i32 i64 lift1 lift2].
  change (Z.of_N 64) with 64; change (Z.of_N 32) with 32.
  rewrite wrap_idem.
  change (wrap 64 32) with 32.
  change (32 <? 64) with true; cbn iota.
  change (wrap 32 (to_int32 65535)) with 65535.
  cbn [lift2].
  rewrite wrap_small; [reflexivity |].
  change 65535 with (Z.ones 16).
  rewrite Z.land_ones by lia.
  pose proof (Z.mod_pos_bound
                (wrap 32 (Z.shiftr (wrap 64 (alignedPtrValue rho)) 32))
                (2 ^ 16) ltac:(lia)).
  lia.
Qed.

(** C6.  Word 1 of the descriptor is the base address shifted right by 32
    bits, truncated to 32 bits and masked with 0x0000FFFF, for every base
    address; so its upper 16 bits are zero. *)
Theorem word1_masked (chipset : Chipset) (gpuOp : GpuOp) (l : Lowered) :
  lower chipset gpuOp = success l ->
  exists word1,
    descriptorWord 1 l = Some word1
    /\ forall rho : Env,
         let address := wrap 64 (alignedPtrValue rho) in
         let v := Z.land (wrap 32 (Z.shiftr address 32)) 0x0000FFFF in
         eval rho word1 = Some v
         /\ v = (address / 2 ^ 32) mod 2 ^ 16
         /\ Z.land v 0xFFFF0000 = 0.
Proof.
  intros H.
  destruct (descriptorWord_lowered _ _ _ H) as (nr & _ & _ & H1 & _ & _).
  exists (highHalfTruncated (getMemref (common gpuOp))).
  split; [exact H1 |].
  intros rho address v.
  assert (Hv : v = (address / 2 ^ 32) mod 2 ^ 16).
  { subst v; unfold wrap.
    change 0x0000FFFF with (Z.ones 16).
    rewrite Z.land_ones, Z.shiftr_div_pow2 by lia.
    replace (2 ^ 32) with (2 ^ 16 * 2 ^ 16) at 2 by lia.
    rewrite Z.rem_mul_r by lia.
    rewrite (Z.mul_comm (2 ^ 16)), Z_mod_plus_full.
    apply Z.mod_mod; lia. }
  assert (Hr : 0 <= v < 2 ^ 16).
  { rewrite Hv; apply Z.mod_pos_bound; lia. }
  repeat split.
  - subst v address; apply eval_highHalfTruncated.
  - exact Hv.
  - change 0xFFFF0000 with (Z.shiftl (Z.ones 16) 16).
    apply Z.bits_inj'; intros n Hn.
    rewrite Z.land_spec, Z.bits_0.
    destruct (Z.lt_ge_cases n 16) as [Hlt | Hge].
    + rewrite Z.shiftl_spec_low by lia. apply andb_false_r.
    + rewrite (Z.bits_above_log2 v n); [reflexivity | lia |].
      destruct (Z.eq_dec v 0) as [-> | Hnz]; [cbn; lia |].
      apply Z.log2_lt_pow2; [lia |].
      apply Z.lt_le_trans with (2 ^ 16); [lia |].
      apply Z.pow_le_mono_r; lia.
Qed.

End Descriptor.

Lemma word3_layout_witness :
  Examples.lower Examples.gfx1030 Examples.load_4x8
  = success (Examples.lowered
               (Examples.lower Examples.gfx1030 Examples.load_4x8))
  /\ exists w,
       descriptorWord 3 (Examples.lowered
                           (Examples.lower Examples.gfx1030 Examples.load_4x8))
       = Some (LLVM_ConstantOp i32 w)
       /\ bitField w 12 3 = 7
       /\ bitField w 15 4 = 4.
Proof.
  split.
  - reflexivity.
  - destruct (word3_layout Examples.kDynamicSize
                Examples.kDynamicStrideOrOffset Examples.gfx1030
                Examples.load_4x8 _ eq_refl) as (w & H3 & H12 & H15 & _).
    exists w; auto.
Defined.

Lemma word1_masked_witness :
  Examples.lower Examples.gfx908 Examples.load_4x8
  = success (Examples.lowered
               (Examples.lower Examples.gfx908 Examples.load_4x8))
  /\ exists word1,
       descriptorWord 1 (Examples.lowered
                           (Examples.lower Examples.gfx908 Examples.load_4x8))
       = Some word1
       /\ eval Examples.env0 word1 = Some 0x5678.
Proof.
  split.
  - reflexivity.
  - destruct (word1_masked Examples.kDynamicSize
                Examples.kDynamicStrideOrOffset Examples.gfx908
                Examples.load_4x8 _ eq_refl) as (word1 & H1 & Hv).
    exists word1; split; [exact H1 |].
    destruct (Hv Examples.env0) as (He & _ & _).
    exact He.
Defined.

(** ** Width adaptation *)

(** The lowering computes the wire type by the policy of the specification
    carried out in 32 bits, everywhere. *)
Lemma llvmBufferValType_wireType32 (t : MlirType) :
  produced (llvmBufferValType t) = wireType32 t.
Proof.
  destruct t as [s | shape elementType | |]; try reflexivity.
  unfold llvmBufferValType, wireType32, maxVectorOpWidth, convertType.
  set (B := (getIntOrFloatBitWidth elementType mod 2 ^ 32)%N).
  rewrite (N.mul_comm (getNumElements shape) B).
  set (total := ((B * getNumElements shape) mod 2 ^ 32)%N).
  destruct (128 <? total)%N; [reflexivity |].
  rewrite (N.leb_antisym B 32).
  destruct (B <? 32)%N; [| reflexivity].
  rewrite (N.leb_antisym 32 total).
  destruct (32 <? total)%N; [| reflexivity].
  destruct (total mod 32 =? 0)%N; reflexivity.
Qed.

(** C5.  On every type whose element width [B] and product [N*B] the
    32-bit fields of lines 75-76 hold, which are the types a buffer
    operation carries, width adaptation follows the policy of the
    specification exactly: a non-vector type is passed through;
    a vector fails if [N*B > 128]; is passed through if [B >= 32]; becomes
    the integer of [N*B] bits if [B < 32] and [N*B <= 32]; and, if [B < 32]
    and [N*B > 32], fails unless [N*B] is a multiple of 32, in which case
    it becomes a vector of [N*B/32] 32-bit integers. *)
Theorem width_adaptation_policy (t : MlirType) :
  fitsUint32 t ->
  produced (llvmBufferValType t) = spec_wireType t.
Proof.
  intros Hfit.
  rewrite llvmBufferValType_wireType32.
  destruct t as [s | shape elementType | |]; try reflexivity.
  destruct Hfit as [HB Htotal].
  unfold wireType32, spec_wireType.
  rewrite (N.mod_small _ _ HB), (N.mod_small _ _ Htotal).
  reflexivity.
Qed.

Lemma width_adaptation_policy_witness :
  fitsUint32 Examples.v4i8
  /\ produced (llvmBufferValType Examples.v4i8) = Some i32
  /\ spec_wireType Examples.v4i8 = Some i32.
Proof.
  assert (Hfit : fitsUint32 Examples.v4i8) by (split; reflexivity).
  split; [exact Hfit |].
  split; [| reflexivity].
  exact (width_adaptation_policy Examples.v4i8 Hfit).
Defined.

Section ScalarTypes.

Variable kDynamicSize : Z.
Variable kDynamicStrideOrOffset : Z.

Let lower := matchAndRewrite kDynamicSize kDynamicStrideOrOffset.

(** C9.  The limit of 128 bits and the multiple-of-32 check apply to
    vector types only: for a type that is not a vector, of whatever width,
    width adaptation succeeds and the wire type is the type itself; the
    lowering of an operation on such a type can then fail with the chipset
    and the layout diagnostics only, and when it succeeds the intrinsic has
    the type itself as its result type and takes the data operand as it
    is. *)
Theorem non_vector_types_pass_through (t : MlirType) :
  isVectorType t = false ->
  llvmBufferValType t = success t
  /\ forall (chipset : Chipset) (gpuOp : GpuOp),
       wantedDataType gpuOp = success t ->
       (forall message,
           lower chipset gpuOp = emitOpError message ->
           message = "Raw buffer ops require GCN or higher"%string
           \/ message = "Can't lower non-stride-offset memrefs"%string)
       /\ (forall l,
              lower chipset gpuOp = success l ->
              resultTypes l = repeat t (getNumResults gpuOp)
              /\ dataArgs l = match storeData gpuOp with
                              | Some v => [Some v]
                              | None => []
                              end).
Proof.
  intros Hscalar.
  assert (Hwire : llvmBufferValType t = success t).
  { destruct t; try reflexivity; discriminate. }
  split; [exact Hwire |].
  intros chipset gpuOp Hwanted; split.
  - intros message; unfold lower, matchAndRewrite.
    destruct (majorVersion chipset <? 9); [intros [= <-]; auto |].
    rewrite Hwanted; cbn [bind]; rewrite Hwire; cbn [bind].
    destruct (stridesAndOffset _) as [[strides offset] |];
      [| intros [= <-]; auto].
    destruct (numRecords _ _ _ _) as [nr | m |] eqn:Hnr;
      cbn [bind]; try discriminate.
    + destruct (voffset _ _ _ _) as [vo | m |] eqn:Hvo;
        cbn [bind]; try discriminate.
      exfalso.
      unfold voffset in Hvo.
      destruct (voffsetLoop _ _ _ _ _ _ _ _) as [vo | m' |] eqn:Hloop;
        cbn [bind] in Hvo; try discriminate.
      revert Hloop; clear.
      generalize 0%nat, (@None Value).
      induction (getIndices (common gpuOp)) as [| index rest IH];
        intros i acc; cbn [voffsetLoop]; [discriminate |].
      destruct (nth_error strides i); [apply IH | discriminate].
    + exfalso.
      unfold numRecords in Hnr.
      destruct (hasStaticShape _ _); [discriminate |].
      destruct (fold_left _ _ _); discriminate.
  - intros l H.
    destruct (matchAndRewrite_success _ _ _ _ _ H)
      as (wanted & wire & strides & offset & nr & vo
          & _ & Hw & Hb & _ & _ & _ & ->).
    rewrite Hwanted in Hw; injection Hw as <-.
    rewrite Hwire in Hb; injection Hb as <-.
    split; [reflexivity |].
    lowered_args.
    unfold storeArgs, convertType.
    destruct (storeData gpuOp); [| reflexivity].
    destruct (MlirType_eq_dec t t); [reflexivity | contradiction].
Qed.

End ScalarTypes.

Lemma non_vector_types_pass_through_witness :
  isVectorType (ScalarTy (IntegerType 256)) = false
  /\ wantedDataType Examples.load_i256 = success (ScalarTy (IntegerType 256))
  /\ Examples.lower Examples.gfx908 Examples.load_i256
     = success (Examples.lowered
                  (Examples.lower Examples.gfx908 Examples.load_i256))
  /\ llvmBufferValType (ScalarTy (IntegerType 256))
     = success (ScalarTy (IntegerType 256))
  /\ resultTypes (Examples.lowered
                    (Examples.lower Examples.gfx908 Examples.load_i256))
     = [ScalarTy (IntegerType 256)].
Proof.
  destruct (non_vector_types_pass_through Examples.kDynamicSize
              Examples.kDynamicStrideOrOffset (ScalarTy (IntegerType 256))
              eq_refl) as [Hwire Hop].
  destruct (Hop Examples.gfx908 Examples.load_i256 eq_refl) as [_ Hok].
  destruct (Hok _ eq_refl) as [Hres _].
  repeat split; try reflexivity; assumption.
Defined.

(** ** The record count *)

Section RecordCount.

Variable kDynamicSize : Z.
Variable kDynamicStrideOrOffset : Z.

Let lower := matchAndRewrite kDynamicSize kDynamicStrideOrOffset.

(** The loop of lines 156-164 over a memref of rank [S n] leaves a value
    in [maxIndex], and that value is not a constant. *)
Lemma maxIndex_loop (memref byteWidthConst : Value) (n : nat) :
  exists maxIndex,
    fold_left (maxIndexStep memref byteWidthConst) (seq 0 (S n)) None
    = Some maxIndex
    /\ forall ty c, maxIndex <> LLVM_ConstantOp ty c.
Proof.
  induction n as [| n (maxIndex & Hfold & _)].
  - exists (maxThisDim memref byteWidthConst 0).
    split; [reflexivity | discriminate].
  - exists (LLVM_MaximumOp maxIndex (maxThisDim memref byteWidthConst (S n))).
    split; [| discriminate].
    rewrite seq_S, fold_left_app, Hfold; reflexivity.
Qed.

Lemma dynamic_shape_has_rank (t : MemRefType) :
  hasStaticShape kDynamicSize t = false -> exists n, getRank t = S n.
Proof.
  unfold hasStaticShape, getRank.
  destruct (getShape t) as [| d shape]; [discriminate |].
  intros _; exists (List.length shape); reflexivity.
Qed.

(** The product of lines 158-160 multiplies the stride field, of the index
    type, by the 32-bit byte-width constant: it is not a well-typed
    multiplication and has no value. *)
Lemma maxThisDim_no_value (rho : Env) (memref : Value) (ebw : Z) (i : nat) :
  eval rho (maxThisDim memref (createI32Constant ebw) i) = None.
Proof. reflexivity. Qed.


End RecordCount.



(** ** The scalar offset *)

Section SgprOffset.

Variable kDynamicSize : Z.
Variable kDynamicStrideOrOffset : Z.

Let lower := matchAndRewrite kDynamicSize kDynamicStrideOrOffset.

Lemma sgprOffsetArg_lowered (chipset : Chipset) (gpuOp : GpuOp)
    (l : Lowered) :
  lower chipset gpuOp = success l ->
  exists strides offset,
    stridesAndOffset (memrefType (common gpuOp)) = Some (strides, offset)
    /\ sgprOffsetArg l
       = Some (Some (sgprOffset kDynamicStrideOrOffset (common gpuOp) offset))
    /\ auxArg l = Some (Some (LLVM_ConstantOp i32 0)).
Proof.
  intros H.
  destruct (matchAndRewrite_success _ _ _ _ _ H)
    as (wanted & wire & strides & offset & nr & vo
        & _ & _ & _ & Hlayout & _ & _ & ->).
  exists strides, offset; split; [exact Hlayout |].
  lowered_args.
  split; reflexivity.
Qed.

(** Lines 229-231 add a positive static offset as it is, whatever the
    element width: on an operation without an offset operand the argument
    computes the offset itself, in 32 bits. *)
Lemma sgprOffset_static_unscaled (chipset : Chipset) (gpuOp : GpuOp)
    (l : Lowered) :
  lower chipset gpuOp = success l ->
  let c := common gpuOp in
  exists strides offset,
    stridesAndOffset (memrefType c) = Some (strides, offset)
    /\ (offset <> kDynamicStrideOrOffset -> 0 < offset ->
        getSgprOffset c = None ->
        let v := LLVM_AddOp (LLVM_ConstantOp i32 0)
                            (LLVM_ConstantOp i32 (to_int32 offset)) in
        sgprOffsetArg l = Some (Some v)
        /\ forall rho, eval rho v = Some (wrap 32 offset)).
Proof.
  intros H c.
  destruct (sgprOffsetArg_lowered _ _ _ H)
    as (strides & offset & Hlayout & Harg & _).
  exists strides, offset; split; [exact Hlayout |].
  intros Hne Hpos Hnone v.
  rewrite Harg; unfold sgprOffset, isDynamicStrideOrOffset.
  fold c; rewrite Hnone.
  apply Z.eqb_neq in Hne; rewrite Hne.
  apply Z.ltb_lt in Hpos; rewrite Hpos.
  split; [reflexivity |].
  intros rho; subst v.
  cbn [eval getType]; unfold binop.
  rewrite MlirType_eqb_refl; cbn [i32 intWidth lift1 lift2].
  change (Z.of_N 32) with 32.
  change (wrap 32 0) with 0; rewrite Z.add_0_l.
  rewrite wrap_idem; apply f_equal, wrap32_to_int32.
Qed.

(** Lines 226-228 add the offset field of the descriptor, of the index
    type, to a 32-bit [sgprOffset]: the sum is not well typed and has no
    value. *)
Lemma sgprOffset_dynamic_no_value (c : Common) (rho : Env) :
  match getSgprOffset c with
  | Some v => getType v = i32
  | None => True
  end ->
  eval rho (sgprOffset kDynamicStrideOrOffset c kDynamicStrideOrOffset)
  = None.
Proof.
  unfold sgprOffset, isDynamicStrideOrOffset; rewrite Z.eqb_refl.
  destruct (getSgprOffset c) as [v |]; intros Hty;
    cbn [eval getType]; unfold binop; [rewrite Hty |]; reflexivity.
Qed.

End SgprOffset.

(** C1 fails on a memref with a static offset and elements wider than a
    byte: for memref<16xf32> with offset 4 elements the base byte offset
    is 16, and the [sgprOffset] argument computes 0 + 4, the offset in
    elements; the stride of the same layout does reach the call scaled to
    bytes. *)
Theorem sgprOffset_adds_unscaled_offset :
  let c := common Examples.load_offset4 in
  let t := memrefType c in
  let l := Examples.lowered
             (Examples.lower Examples.gfx908 Examples.load_offset4) in
  let emitted := LLVM_AddOp (LLVM_ConstantOp i32 0) (LLVM_ConstantOp i32 4) in
  Examples.lower Examples.gfx908 Examples.load_offset4 = success l
  /\ stridesAndOffset t = Some ([1], 4)
  /\ getSgprOffset c = None
  /\ elementByteWidth t = 4
  /\ spec_baseByteOffset t 4 = 16
  /\ sgprOffsetArg l = Some (Some emitted)
  /\ (forall rho, eval rho emitted = Some 4)
  /\ (forall rho, eval rho emitted <> Some (0 + spec_baseByteOffset t 4))
  /\ voffsetArg l
     = Some (Some (LLVM_MulOp (Examples.idx 1) (LLVM_ConstantOp i32 4))).
Proof.
  cbv zeta.
  repeat split; try reflexivity.
  intros rho; discriminate.
Qed.

(** ** The vector offset *)

Section Voffset.

Variable kDynamicSize : Z.
Variable kDynamicStrideOrOffset : Z.

Let lower := matchAndRewrite kDynamicSize kDynamicStrideOrOffset.

(** Lines 206-208: the byte stride of a static stride, in 32 bits. *)
Lemma eval_static_strideOp (rho : Env) (stride ebw : Z) :
  getType (createI32Constant (to_int64 (stride * ebw))) = i32
  /\ eval rho (createI32Constant (to_int64 (stride * ebw)))
     = Some (wrap 32 (stride * ebw)).
Proof.
  split; [reflexivity |].
  rewrite eval_createI32Constant.
  autorewrite with wrap32; reflexivity.
Qed.

(** A product and a sum of two 32-bit values, in 32 bits. *)
Lemma eval_i32_mul (rho : Env) (a b : Value) (x y : Z) :
  getType a = i32 -> getType b = i32 ->
  eval rho a = Some x -> eval rho b = Some y ->
  eval rho (LLVM_MulOp a b) = Some (wrap 32 (x * y)).
Proof.
  intros Ha Hb Hx Hy.
  change (eval rho (LLVM_MulOp a b))
    with (binop Z.mul (getType a) (getType b) (eval rho a) (eval rho b)).
  unfold binop; rewrite Ha, Hb, Hx, Hy, MlirType_eqb_refl.
  reflexivity.
Qed.

Lemma eval_i32_add (rho : Env) (a b : Value) (x y : Z) :
  getType a = i32 -> getType b = i32 ->
  eval rho a = Some x -> eval rho b = Some y ->
  eval rho (LLVM_AddOp a b) = Some (wrap 32 (x + y)).
Proof.
  intros Ha Hb Hx Hy.
  change (eval rho (LLVM_AddOp a b))
    with (binop Z.add (getType a) (getType b) (eval rho a) (eval rho b)).
  unfold binop; rewrite Ha, Hb, Hx, Hy, MlirType_eqb_refl.
  reflexivity.
Qed.

(** The loop does not leave [strides] when there are no more indices than
    strides. *)
Lemma voffsetLoop_defined (strides : list Z) (ebw : Z)
    (memref byteWidthConst : Value) (indices : list Value) :
  forall (i : nat) (acc : option Value),
    (i + List.length indices <= List.length strides)%nat ->
    exists r,
      voffsetLoop kDynamicStrideOrOffset strides ebw memref byteWidthConst
                  i indices acc
      = success r.
Proof.
  induction indices as [| index rest IH]; intros i acc Hlen.
  - exists acc; reflexivity.
  - cbn [voffsetLoop].
    destruct (nth_error strides i) as [stride |] eqn:Hnth.
    + apply IH; cbn [List.length] in Hlen; lia.
    + apply nth_error_None in Hnth; cbn [List.length] in Hlen; lia.
Qed.

(** Over static strides the loop adds index * (stride * element byte
    width) for each dimension, in 32 bits, to what [voffset] held. *)
Lemma voffsetLoop_sum (rho : Env) (strides : list Z) (ebw : Z)
    (memref : Value) (indices : list Value) :
  staticStrides kDynamicStrideOrOffset strides ->
  forall (xs : list Z) (i : nat) (acc r : option Value) (a : Z),
    Forall2 (computes32 rho) indices xs ->
    partialSum rho acc a ->
    voffsetLoop kDynamicStrideOrOffset strides ebw memref
                (createI32Constant ebw) i indices acc
    = success r ->
    partialSum rho r (a + indexTerms strides ebw i xs)
    /\ (r = None <-> acc = None /\ indices = []).
Proof.
  intros Hstatic.
  induction indices as [| index rest IH]; intros xs i acc r a Hxs Hacc Hloop.
  - inversion Hxs; subst.
    injection Hloop as <-.
    cbn [indexTerms]; rewrite Z.add_0_r.
    split; [exact Hacc | tauto].
  - inversion Hxs as [| index' x rest' xs' [Hty Hx] Hrest]; subst.
    cbn [voffsetLoop] in Hloop.
    destruct (nth_error strides i) as [stride |] eqn:Hnth;
      [| discriminate].
    assert (Hs : isDynamicStrideOrOffset kDynamicStrideOrOffset stride
                 = false).
    { apply Z.eqb_neq.
      unfold staticStrides in Hstatic; rewrite Forall_forall in Hstatic.
      apply Hstatic, (nth_error_In _ _ Hnth). }
    rewrite Hs in Hloop.
    destruct (eval_static_strideOp rho stride ebw) as [Hsty Hsv].
    set (strideOp := createI32Constant (to_int64 (stride * ebw))) in *.
    set (term := x * (strideAt strides i * ebw)).
    assert (Hterm : computes32 rho (LLVM_MulOp index strideOp) term).
    { split; [exact Hty |].
      rewrite (eval_i32_mul rho index strideOp _ _ Hty Hsty Hx Hsv).
      subst term; unfold strideAt; rewrite Hnth.
      f_equal; apply wrap32_mul; [apply wrap_idem | apply wrap_idem]. }
    apply (IH xs' (S i) _ r (a + term)) in Hloop; [| exact Hrest |].
    + destruct Hloop as [Hsum Hnull].
      cbn [indexTerms]; fold term.
      rewrite Z.add_assoc.
      split; [exact Hsum |].
      split; [intros Hr; apply Hnull in Hr as [? _]; discriminate
             | intros [_ ?]; discriminate].
    + destruct acc as [v |]; cbn [partialSum] in Hacc |- *.
      * destruct Hacc as [Hvty Hv].
        destruct Hterm as [Htty Hterm].
        split; [exact Hvty |].
        rewrite (eval_i32_add rho v (LLVM_MulOp index strideOp)
                   _ _ Hvty Htty Hv Hterm).
        f_equal; apply wrap32_add.
      * subst a; exact Hterm.
Qed.

(** Lines 214-220 add the extra index offset times the element byte
    width. *)
Lemma addIndexOffset_sum (rho : Env) (indexOffset : option Z) (ebw : Z)
    (acc : option Value) (a : Z) :
  partialSum rho acc a ->
  partialSum rho (addIndexOffset indexOffset ebw acc)
             (a + extraTerm indexOffset ebw)
  /\ (addIndexOffset indexOffset ebw acc = None
      <-> acc = None /\ indexOffset = None).
Proof.
  intros Hacc.
  destruct indexOffset as [off |]; cbn [addIndexOffset extraTerm].
  - split; [| split; [discriminate | intros [_ ?]; discriminate]].
    set (extra := createI32Constant (to_int32 (to_int64 (off * ebw)))).
    assert (Hc : computes32 rho extra (off * ebw)).
    { split; [reflexivity |].
      subst extra; rewrite eval_createI32Constant.
      autorewrite with wrap32; reflexivity. }
    destruct acc as [v |]; cbn [partialSum] in Hacc |- *.
    + destruct Hacc as [Hvty Hv].
      destruct Hc as [Hcty Hc].
      split; [exact Hvty |].
      rewrite (eval_i32_add rho v extra _ _ Hvty Hcty Hv Hc).
      f_equal; apply wrap32_add.
    + subst a; exact Hc.
  - rewrite Z.add_0_r; split; [exact Hacc | tauto].
Qed.

Lemma voffsetArg_lowered (chipset : Chipset) (gpuOp : GpuOp) (l : Lowered) :
  lower chipset gpuOp = success l ->
  let c := common gpuOp in
  exists strides offset vo,
    stridesAndOffset (memrefType c) = Some (strides, offset)
    /\ voffset kDynamicStrideOrOffset c strides
               (createI32Constant (elementByteWidth (memrefType c)))
       = success vo
    /\ voffsetArg l = Some vo.
Proof.
  intros H c.
  destruct (matchAndRewrite_success _ _ _ _ _ H)
    as (wanted & wire & strides & offset & nr & vo
        & _ & _ & _ & Hlayout & _ & Hvo & ->).
  exists strides, offset, vo.
  split; [exact Hlayout |]; split; [exact Hvo |].
  lowered_args.
  reflexivity.
Qed.

(** Over a layout of static strides, the [voffset] argument of a lowered
    operation that has an index or an extra index offset is a 32-bit value
    that computes the sum over the dimensions of index * (stride * element
    byte width) plus the extra index offset times the element byte
    width. *)
Lemma voffset_value (chipset : Chipset) (gpuOp : GpuOp) (l : Lowered)
    (strides : list Z) (offset : Z) (rho : Env) (xs : list Z) :
  lower chipset gpuOp = success l ->
  let c := common gpuOp in
  let ebw := elementByteWidth (memrefType c) in
  stridesAndOffset (memrefType c) = Some (strides, offset) ->
  staticStrides kDynamicStrideOrOffset strides ->
  Forall2 (computes32 rho) (getIndices c) xs ->
  getIndices c <> [] \/ getIndexOffset c <> None ->
  exists v,
    voffsetArg l = Some (Some v)
    /\ getType v = i32
    /\ eval rho v
       = Some (wrap 32 (indexTerms strides ebw 0 xs
                        + extraTerm (getIndexOffset c) ebw)).
Proof.
  intros H c ebw Hlayout Hstatic Hxs Hsome.
  destruct (voffsetArg_lowered _ _ _ H)
    as (strides' & offset' & vo & Hlayout' & Hvo & Harg).
  fold c in Hlayout'; rewrite Hlayout in Hlayout'.
  injection Hlayout' as <- <-.
  unfold voffset in Hvo; fold c ebw in Hvo.
  destruct (voffsetLoop _ _ _ _ _ _ _ _) as [r | |] eqn:Hloop;
    cbn [bind] in Hvo; try discriminate.
  injection Hvo as <-.
  destruct (voffsetLoop_sum rho strides ebw (getMemref c) (getIndices c)
              Hstatic xs 0%nat None r 0 Hxs eq_refl Hloop) as [Hsum Hnull].
  destruct (addIndexOffset_sum rho (getIndexOffset c) ebw r _ Hsum)
    as [Hsum' Hnull'].
  rewrite Z.add_0_l in Hsum'.
  destruct (addIndexOffset (getIndexOffset c) ebw r) as [v |].
  - exists v; destruct Hsum' as [Hty Hv]; auto.
  - destruct Hnull' as [Hnull' _].
    destruct (Hnull' eq_refl) as [Hr Ho].
    destruct Hnull as [Hnull _].
    destruct (Hnull Hr) as [_ Hi].
    destruct Hsome; contradiction.
Qed.

End Voffset.

(** C2 fails on a memref of rank 0 accessed without an extra index offset:
    the lowering succeeds and the [voffset] argument of the created call is
    null, where the claim has a zero constant. *)
Theorem voffset_null_without_terms :
  let l := Examples.lowered
             (Examples.lower Examples.gfx908 Examples.load_rank0) in
  Examples.lower Examples.gfx908 Examples.load_rank0 = success l
  /\ getIndices (common Examples.load_rank0) = []
  /\ getIndexOffset (common Examples.load_rank0) = None
  /\ voffsetArg l = Some None
  /\ sgprOffsetArg l = Some (Some (LLVM_ConstantOp i32 0)).
Proof.
  cbv zeta.
  repeat split; reflexivity.
Qed.

(** ** Elements narrower than a byte *)

Section NarrowElements.

Variable kDynamicSize : Z.
Variable kDynamicStrideOrOffset : Z.

Let lower := matchAndRewrite kDynamicSize kDynamicStrideOrOffset.

(** Building the record count always yields a value. *)
Lemma numRecords_defined (t : MemRefType) (memref byteWidthConst : Value) :
  exists nr,
    numRecords kDynamicSize t memref byteWidthConst = success nr.
Proof.
  unfold numRecords.
  destruct (hasStaticShape kDynamicSize t) eqn:Hshape.
  - eexists; reflexivity.
  - destruct (dynamic_shape_has_rank kDynamicSize t Hshape) as [n ->].
    destruct (maxIndex_loop memref byteWidthConst n)
      as (maxIndex & -> & _).
    eexists; reflexivity.
Qed.

(** The lowering succeeds once the chipset gate, width adaptation and the
    layout query have passed and every index has a stride. *)
Lemma matchAndRewrite_defined (chipset : Chipset) (gpuOp : GpuOp)
    (wanted wire : MlirType) (strides : list Z) (offset : Z) :
  9 <= majorVersion chipset ->
  wantedDataType gpuOp = success wanted ->
  llvmBufferValType wanted = success wire ->
  stridesAndOffset (memrefType (common gpuOp)) = Some (strides, offset) ->
  (List.length (getIndices (common gpuOp)) <= List.length strides)%nat ->
  exists l, lower chipset gpuOp = success l.
Proof.
  intros Hgate Hwanted Hwire Hlayout Hlen.
  unfold lower, matchAndRewrite.
  apply Z.ltb_ge in Hgate; rewrite Hgate, Hwanted; cbn [bind].
  rewrite Hwire; cbn [bind]; rewrite Hlayout.
  destruct (numRecords_defined (memrefType (common gpuOp))
              (getMemref (common gpuOp))
              (createI32Constant
                 (elementByteWidth (memrefType (common gpuOp)))))
    as [nr ->].
  cbn [bind]; unfold voffset.
  destruct (voffsetLoop_defined kDynamicStrideOrOffset strides
              (elementByteWidth (memrefType (common gpuOp)))
              (getMemref (common gpuOp))
              (createI32Constant (elementByteWidth (memrefType (common gpuOp))))
              (getIndices (common gpuOp)) 0%nat None Hlen) as [r ->].
  cbn [bind]; eexists; reflexivity.
Qed.

Lemma indexTerms_zero_width (strides : list Z) (xs : list Z) :
  forall i, indexTerms strides 0 i xs = 0.
Proof.
  induction xs as [| x rest IH]; intros i; cbn [indexTerms];
    [reflexivity |].
  rewrite IH; lia.
Qed.

(** Line 66 divides the bit width by 8 and rounds down. *)
Lemma elementByteWidth_floor (t : MemRefType) :
  8 * elementByteWidth t <= Z.of_N (getElementTypeBitWidth t)
  < 8 * elementByteWidth t + 8.
Proof.
  unfold elementByteWidth.
  pose proof (N.div_mod (getElementTypeBitWidth t) 8 ltac:(discriminate)).
  pose proof (N.mod_lt (getElementTypeBitWidth t) 8 ltac:(discriminate)).
  generalize dependent (getElementTypeBitWidth t / 8)%N.
  generalize dependent (getElementTypeBitWidth t mod 8)%N.
  intros r Hr q Hq; lia.
Qed.

(** C10.  The element byte width is the element bit width divided by 8,
    rounded down, and it is the factor by which the lowering scales the
    static record count, the static strides and the extra index offset.
    For an element type narrower than 8 bits it is 0; the lowering succeeds
    all the same (once the chipset gate, width adaptation and the layout
    query pass); the static record count is then the constant 0, every
    static byte stride and the extra index offset are the constant 0, and
    the [voffset] built from them is a value that computes 0. *)
Theorem narrow_element_byte_width (chipset : Chipset) (gpuOp : GpuOp) :
  let c := common gpuOp in
  let t := memrefType c in
  let ebw := elementByteWidth t in
  8 * ebw <= Z.of_N (getElementTypeBitWidth t) < 8 * ebw + 8
  /\ (forall l,
         lower chipset gpuOp = success l ->
         (hasStaticShape kDynamicSize t = true ->
          descriptorWord 2 l
          = Some (LLVM_ConstantOp i32
                    (to_int32 (MemRefType_getNumElements t * ebw))))
         /\ forall strides offset rho xs,
              stridesAndOffset t = Some (strides, offset) ->
              staticStrides kDynamicStrideOrOffset strides ->
              Forall2 (computes32 rho) (getIndices c) xs ->
              getIndices c <> [] \/ getIndexOffset c <> None ->
              exists v,
                voffsetArg l = Some (Some v)
                /\ eval rho v
                   = Some (wrap 32 (indexTerms strides ebw 0 xs
                                    + extraTerm (getIndexOffset c) ebw)))
  /\ ((getElementTypeBitWidth t < 8)%N ->
      ebw = 0
      /\ (forall stride,
             createI32Constant (to_int64 (stride * ebw))
             = LLVM_ConstantOp i32 0)
      /\ (forall off,
             createI32Constant (to_int32 (to_int64 (off * ebw)))
             = LLVM_ConstantOp i32 0)
      /\ (forall wanted wire strides offset,
             9 <= majorVersion chipset ->
             wantedDataType gpuOp = success wanted ->
             llvmBufferValType wanted = success wire ->
             stridesAndOffset t = Some (strides, offset) ->
             (List.length (getIndices c) <= List.length strides)%nat ->
             exists l, lower chipset gpuOp = success l)
      /\ (forall l,
             lower chipset gpuOp = success l ->
             (hasStaticShape kDynamicSize t = true ->
              descriptorWord 2 l = Some (LLVM_ConstantOp i32 0))
             /\ forall strides offset rho xs,
                  stridesAndOffset t = Some (strides, offset) ->
                  staticStrides kDynamicStrideOrOffset strides ->
                  Forall2 (computes32 rho) (getIndices c) xs ->
                  getIndices c <> [] \/ getIndexOffset c <> None ->
                  exists v,
                    voffsetArg l = Some (Some v)
                    /\ eval rho v = Some 0)).
Proof.
  intros c t ebw.
  assert (Hgeneral :
            forall l,
              lower chipset gpuOp = success l ->
              (hasStaticShape kDynamicSize t = true ->
               descriptorWord 2 l
               = Some (LLVM_ConstantOp i32
                         (to_int32 (MemRefType_getNumElements t * ebw))))
              /\ forall strides offset rho xs,
                   stridesAndOffset t = Some (strides, offset) ->
                   staticStrides kDynamicStrideOrOffset strides ->
                   Forall2 (computes32 rho) (getIndices c) xs ->
                   getIndices c <> [] \/ getIndexOffset c <> None ->
                   exists v,
                     voffsetArg l = Some (Some v)
                     /\ eval rho v
                        = Some (wrap 32 (indexTerms strides ebw 0 xs
                                         + extraTerm (getIndexOffset c)
                                                     ebw))).
  { intros l H; split.
    - intros Hshape.
      destruct (descriptorWord_lowered _ _ _ _ _ H)
        as (nr & Hnr & _ & _ & H2 & _).
      fold c t in Hnr.
      unfold numRecords in Hnr; rewrite Hshape in Hnr.
      injection Hnr as <-.
      unfold createI32Constant in H2.
      rewrite to_int32_idem, to_int32_to_int64 in H2.
      exact H2.
    - intros strides offset rho xs Hlayout Hstatic Hxs Hsome.
      destruct (voffset_value _ _ _ _ _ strides offset rho xs
                              H Hlayout Hstatic Hxs Hsome)
        as (v & Harg & _ & Hv).
      exists v; split; [exact Harg | exact Hv]. }
  split; [apply elementByteWidth_floor |].
  split; [exact Hgeneral |].
  intros Hnarrow.
  assert (Hzero : ebw = 0).
  { subst ebw; unfold elementByteWidth.
    rewrite N.div_small by exact Hnarrow; reflexivity. }
  split; [exact Hzero |].
  split; [intros stride; rewrite Hzero, Z.mul_0_r; reflexivity |].
  split; [intros off; rewrite Hzero, Z.mul_0_r; reflexivity |].
  split; [intros wanted wire strides offset;
          apply matchAndRewrite_defined |].
  intros l H.
  destruct (Hgeneral l H) as [Hcount Hvo].
  split.
  - intros Hshape.
    rewrite (Hcount Hshape), Hzero, Z.mul_0_r; reflexivity.
  - intros strides offset rho xs Hlayout Hstatic Hxs Hsome.
    destruct (Hvo strides offset rho xs Hlayout Hstatic Hxs Hsome)
      as (v & Harg & Hv).
    exists v; split; [exact Harg |].
    rewrite Hv, Hzero, indexTerms_zero_width.
    replace (extraTerm (getIndexOffset c) 0) with 0
      by (unfold extraTerm; destruct (getIndexOffset c); lia).
    reflexivity.
Qed.

End NarrowElements.

Lemma narrow_element_byte_width_witness :
  let wide := Examples.lowered
                (Examples.lower Examples.gfx908 Examples.load_i12) in
  let narrow := Examples.lowered
                  (Examples.lower Examples.gfx908 Examples.load_i4) in
  (elementByteWidth Examples.memref_16xi12 = 1
   /\ Examples.lower Examples.gfx908 Examples.load_i12 = success wide
   /\ descriptorWord 2 wide = Some (LLVM_ConstantOp i32 16)
   /\ exists v, voffsetArg wide = Some (Some v)
                /\ eval Examples.env0 v = Some 5)
  /\ ((getElementTypeBitWidth Examples.memref_16xi4 < 8)%N
      /\ elementByteWidth Examples.memref_16xi4 = 0
      /\ Examples.lower Examples.gfx908 Examples.load_i4 = success narrow
      /\ descriptorWord 2 narrow = Some (LLVM_ConstantOp i32 0)
      /\ exists v, voffsetArg narrow = Some (Some v)
                   /\ eval Examples.env0 v = Some 0).
Proof.
  intros wide narrow.
  assert (Hxs : forall op, getIndices (common op) = [Examples.idx 1] ->
                  Forall2 (computes32 Examples.env0)
                          (getIndices (common op)) [2]).
  { intros op ->; repeat constructor. }
  assert (Hstatic : staticStrides Examples.kDynamicStrideOrOffset [1])
    by (repeat constructor; discriminate).
  split.
  - destruct (narrow_element_byte_width Examples.kDynamicSize
                Examples.kDynamicStrideOrOffset Examples.gfx908
                Examples.load_i12) as (Hfloor & Hgeneral & _).
    destruct (Hgeneral wide eq_refl) as [Hcount Hvo].
    split; [cbn in Hfloor |- *; lia |].
    split; [reflexivity |].
    split; [exact (Hcount eq_refl) |].
    exact (Hvo [1] 0 Examples.env0 [2] eq_refl Hstatic
               (Hxs Examples.load_i12 eq_refl)
               ltac:(left; discriminate)).
  - destruct (narrow_element_byte_width Examples.kDynamicSize
                Examples.kDynamicStrideOrOffset Examples.gfx908
                Examples.load_i4) as (_ & _ & Hnarrow).
    destruct (Hnarrow eq_refl) as (Hzero & _ & _ & Hdef & Hval).
    destruct (Hdef (ScalarTy (IntegerType 4)) (ScalarTy (IntegerType 4))
                [1] 0 ltac:(cbn; lia) eq_refl eq_refl eq_refl
                ltac:(cbn; lia)) as [l' Hl'].
    destruct (Hval narrow eq_refl) as [Hcount Hvo].
    split; [reflexivity |].
    split; [exact Hzero |].
    split; [reflexivity |].
    split; [exact (Hcount eq_refl) |].
    exact (Hvo [1] 0 Examples.env0 [2] eq_refl Hstatic
               (Hxs Examples.load_i4 eq_refl)
               ltac:(left; discriminate)).
Defined.

(** ** Reinterpretation at the boundary *)

Section Lanes.

Variable b : Z.
Hypothesis b_nonneg : 0 <= b.

Lemma pow2_pos : 0 < 2 ^ b.
Proof. apply Z.pow_pos_nonneg; lia. Qed.

Lemma pack_range (lanes : list Z) :
  0 <= pack b lanes < 2 ^ (b * Z.of_nat (List.length lanes)).
Proof.
  pose proof pow2_pos as Hpos.
  induction lanes as [| x rest IH]; cbn [pack List.length].
  - rewrite Z.mul_0_r; cbn; lia.
  - rewrite Nat2Z.inj_succ, Z.mul_succ_r, Z.pow_add_r by lia.
    pose proof (Z.mod_pos_bound x (2 ^ b) Hpos).
    nia.
Qed.

Lemma unpack_pack (lanes : list Z) :
  Forall (fun x => 0 <= x < 2 ^ b) lanes ->
  unpack b (List.length lanes) (pack b lanes) = lanes.
Proof.
  pose proof pow2_pos as Hpos.
  induction 1 as [| x rest Hx Hrest IH]; cbn [pack unpack List.length];
    [reflexivity |].
  rewrite (Z.mod_small x) by exact Hx.
  f_equal.
  - rewrite (Z.mul_comm (2 ^ b)), Z_mod_plus_full.
    apply Z.mod_small; exact Hx.
  - rewrite (Z.mul_comm (2 ^ b)), Z.div_add by lia.
    rewrite (Z.div_small x) by exact Hx.
    exact IH.
Qed.

Lemma pack_unpack (n : nat) :
  forall bits, pack b (unpack b n bits) = bits mod 2 ^ (b * Z.of_nat n).
Proof.
  pose proof pow2_pos as Hpos.
  induction n as [| n IH]; intros bits; cbn [pack unpack].
  - rewrite Z.mul_0_r; cbn; rewrite Z.mod_1_r; reflexivity.
  - rewrite IH, Z.mod_mod by lia.
    replace (b * Z.of_nat (S n)) with (b + b * Z.of_nat n) by lia.
    rewrite Z.pow_add_r by lia.
    rewrite Z.rem_mul_r by (try apply Z.pow_pos_nonneg; lia).
    reflexivity.
Qed.

End Lanes.

Lemma laneBits_nonneg (t : MlirType) : 0 <= laneBits t.
Proof. destruct t; cbn; lia. Qed.

(** A bitcast to a type of the same size and back returns every lane. *)
Lemma bitcast_inverse (T W : MlirType) (lanes : list Z) :
  sizeInBits T = sizeInBits W ->
  hasType T lanes ->
  exists written,
    bitcast T W lanes = Some written
    /\ bitcast W T written = Some lanes.
Proof.
  intros Hsize [Hlen Hrange].
  unfold bitcast.
  rewrite Hsize, Z.eqb_refl.
  eexists; split; [reflexivity |].
  f_equal.
  rewrite pack_unpack by apply laneBits_nonneg.
  rewrite N_nat_Z.
  change (laneBits W * Z.of_N (laneCount W)) with (sizeInBits W).
  rewrite <- Hsize.
  pose proof (pack_range (laneBits T) (laneBits_nonneg T) lanes) as Hpack.
  rewrite Hlen, N_nat_Z in Hpack.
  change (laneBits T * Z.of_N (laneCount T)) with (sizeInBits T) in Hpack.
  rewrite Z.mod_small by exact Hpack.
  rewrite <- Hlen.
  apply unpack_pack; [apply laneBits_nonneg | exact Hrange].
Qed.

(** Width adaptation keeps the size of a type whose widths fit in
    32 bits. *)
Lemma llvmBufferValType_size (T W : MlirType) :
  fitsUint32 T ->
  llvmBufferValType T = success W ->
  sizeInBits W = sizeInBits T.
Proof.
  intros Hfit.
  destruct T as [s | shape elementType | |];
    try (intros [= <-]; reflexivity).
  destruct Hfit as [HB Htotal].
  unfold llvmBufferValType, maxVectorOpWidth, convertType.
  rewrite (N.mod_small _ _ HB).
  rewrite (N.mul_comm (getIntOrFloatBitWidth elementType)).
  rewrite (N.mod_small _ _ Htotal).
  set (B := getIntOrFloatBitWidth elementType) in *.
  set (n := getNumElements shape) in *.
  destruct (128 <? n * B)%N; [discriminate |].
  destruct (B <? 32)%N; [| intros [= <-]; reflexivity].
  destruct (32 <? n * B)%N.
  - destruct (n * B mod 32 =? 0)%N eqn:Hmod; [| discriminate].
    cbn [negb]; intros [= <-].
    apply N.eqb_eq in Hmod.
    unfold sizeInBits; cbn [laneBits laneCount getNumElements fold_right
                             getIntOrFloatBitWidth].
    fold B n.
    pose proof (N.div_mod (n * B) 32 ltac:(discriminate)) as Hdiv.
    rewrite Hmod in Hdiv.
    lia.
  - cbn [negb]; intros [= <-].
    unfold sizeInBits; cbn [laneBits laneCount getNumElements fold_right
                             getIntOrFloatBitWidth].
    fold B n; lia.
Qed.

Section Boundary.

Variable kDynamicSize : Z.
Variable kDynamicStrideOrOffset : Z.

Let lower := matchAndRewrite kDynamicSize kDynamicStrideOrOffset.

(** The data argument of a lowered store of an operand of type [T]. *)
Lemma store_boundary (chipset : Chipset) (c : Common) (id : nat)
    (T : MlirType) (l : Lowered) :
  lower chipset (RawBufferStoreOp (Operand id T) c) = success l ->
  exists wire,
    llvmBufferValType T = success wire
    /\ dataArgs l
       = [Some (if MlirType_eq_dec wire T then Operand id T
                else LLVM_BitcastOp wire (Operand id T))].
Proof.
  intros H.
  destruct (matchAndRewrite_success _ _ _ _ _ H)
    as (wanted & wire & strides & offset & nr & vo
        & _ & Hw & Hb & _ & _ & _ & ->).
  unfold wantedDataType, storeData in Hw, Hb |- *.
  cbn [getODSOperands0 common getODSResults0Type] in *.
  destruct (Value_eq_dec (Operand id T) (getMemref c));
    [discriminate |].
  injection Hw as <-; cbn [getType] in *.
  exists wire; split; [exact Hb |].
  lowered_args.
  unfold storeArgs, convertType.
  destruct (MlirType_eq_dec wire T); reflexivity.
Qed.

(** The replacement of a lowered load of type [T]. *)
Lemma load_boundary (chipset : Chipset) (c : Common) (T : MlirType)
    (l : Lowered) :
  lower chipset (RawBufferLoadOp c T) = success l ->
  exists wire,
    llvmBufferValType T = success wire
    /\ resultTypes l = [wire]
    /\ opRewrite l
       = replaceOp (if MlirType_eq_dec wire T then IntrinsicResult wire
                    else LLVM_BitcastOp T (IntrinsicResult wire)).
Proof.
  intros H.
  destruct (matchAndRewrite_success _ _ _ _ _ H)
    as (wanted & wire & strides & offset & nr & vo
        & _ & Hw & Hb & _ & _ & _ & ->).
  unfold wantedDataType, storeData in Hw.
  cbn [getODSOperands0 common getODSResults0Type] in Hw.
  destruct (Value_eq_dec (getMemref c) (getMemref c)); [| contradiction].
  injection Hw as <-.
  exists wire; split; [exact Hb |].
  split; [reflexivity |].
  cbn [opRewrite]; unfold rewriteOp, convertType.
  cbn [getNumResults Nat.eqb].
  destruct (MlirType_eq_dec wire T); reflexivity.
Qed.

(** C8.  For a type [T] whose element width and total width the 32-bit
    fields of lines 75-76 hold, which are the types a buffer operation
    carries: what a lowered store hands to the intrinsic and what a
    lowered load makes of the intrinsic's result are, when the wire type
    differs from [T], a bitcast of the operand to the wire type and a
    bitcast of the result back to [T], and nothing else; and the load then
    returns the lanes of the stored value bit for bit, whenever the
    intrinsic returns the lanes the store wrote. *)
Theorem store_load_round_trip (chipset : Chipset) (cs cl : Common)
    (id : nat) (T : MlirType) (ls ll : Lowered)
    (operandLanes : nat -> list Z) :
  fitsUint32 T ->
  lower chipset (RawBufferStoreOp (Operand id T) cs) = success ls ->
  lower chipset (RawBufferLoadOp cl T) = success ll ->
  hasType T (operandLanes id) ->
  exists wire stored replacement written,
    llvmBufferValType T = success wire
    /\ dataArgs ls = [Some stored]
    /\ resultTypes ll = [wire]
    /\ opRewrite ll = replaceOp replacement
    /\ (wire <> T ->
        stored = LLVM_BitcastOp wire (Operand id T)
        /\ replacement = LLVM_BitcastOp T (IntrinsicResult wire))
    /\ (forall loaded, evalData operandLanes loaded stored = Some written)
    /\ evalData operandLanes written replacement = Some (operandLanes id).
Proof.
  intros Hfit Hs Hl Hty.
  destruct (store_boundary _ _ _ _ _ Hs) as (wire & Hwire & Hdata).
  destruct (load_boundary _ _ _ _ Hl) as (wire' & Hwire' & Hres & Hrw).
  rewrite Hwire in Hwire'; injection Hwire' as <-.
  pose proof (llvmBufferValType_size T wire Hfit Hwire) as Hsize.
  destruct (MlirType_eq_dec wire T) as [-> | Hne].
  - exists T, (Operand id T), (IntrinsicResult T), (operandLanes id).
    repeat split; try assumption; try reflexivity; contradiction.
  - destruct (bitcast_inverse T wire (operandLanes id) (eq_sym Hsize) Hty)
      as (written & Hto & Hback).
    exists wire, (LLVM_BitcastOp wire (Operand id T)),
      (LLVM_BitcastOp T (IntrinsicResult wire)), written.
    repeat split; try assumption; try reflexivity.
    intros loaded; cbn [evalData getType]; exact Hto.
Qed.

End Boundary.

Lemma store_load_round_trip_witness :
  let ls := Examples.lowered
              (Examples.lower Examples.gfx908 Examples.store_v4i8) in
  let ll := Examples.lowered
              (Examples.lower Examples.gfx908 Examples.load_v4i8) in
  let lanes := fun _ : nat => [1; 2; 3; 4] in
  fitsUint32 Examples.v4i8
  /\ Examples.lower Examples.gfx908 Examples.store_v4i8 = success ls
  /\ Examples.lower Examples.gfx908 Examples.load_v4i8 = success ll
  /\ hasType Examples.v4i8 (lanes 7%nat)
  /\ dataArgs ls = [Some (LLVM_BitcastOp i32 (Operand 7 Examples.v4i8))]
  /\ opRewrite ll
     = replaceOp (LLVM_BitcastOp Examples.v4i8 (IntrinsicResult i32))
  /\ evalData lanes [] (LLVM_BitcastOp i32 (Operand 7 Examples.v4i8))
     = Some [0x04030201]
  /\ evalData lanes [0x04030201]
              (LLVM_BitcastOp Examples.v4i8 (IntrinsicResult i32))
     = Some [1; 2; 3; 4].
Proof.
  intros ls ll lanes.
  assert (Hfit : fitsUint32 Examples.v4i8) by (split; reflexivity).
  assert (Hty : hasType Examples.v4i8 (lanes 7%nat)).
  { split; [reflexivity |].
    repeat constructor; cbn; lia. }
  destruct (store_load_round_trip Examples.kDynamicSize
              Examples.kDynamicStrideOrOffset Examples.gfx908
              (common Examples.store_v4i8) (common Examples.load_v4i8)
              7%nat Examples.v4i8 ls ll lanes Hfit eq_refl eq_refl Hty)
    as (wire & stored & replacement & written
        & Hwire & Hdata & _ & Hrw & Hcast & Hstore & Hload).
  injection Hwire as <-.
  destruct (Hcast ltac:(discriminate)) as [-> ->].
  pose proof (Hstore []) as Hwritten.
  assert (written = [0x04030201]) as ->
      by (injection Hwritten as <-; reflexivity).
  split; [exact Hfit |].
  split; [reflexivity |].
  split; [reflexivity |].
  split; [exact Hty |].
  split; [exact Hdata |].
  split; [exact Hrw |].
  split; [exact Hwritten | exact Hload].
Defined.

(** * Further properties of the lowering *)

Section DescriptorWords.

Variable kDynamicSize : Z.
Variable kDynamicStrideOrOffset : Z.

Let lower := matchAndRewrite kDynamicSize kDynamicStrideOrOffset.

Lemma eval_lowHalf (rho : Env) (memref : Value) :
  eval rho (lowHalf memref) = Some (wrap 64 (alignedPtrValue rho) mod 2 ^ 32).
Proof.
  unfold lowHalf, ptrAsInt, convertType.
  cbn [eval getType intWidth i32 i64 lift2].
  change (Z.of_N 64) with 64; change (Z.of_N 32) with 32.
  rewrite wrap_idem; reflexivity.
Qed.

Lemma high_half_bits (a : Z) :
  Z.land (wrap 32 (Z.shiftr a 32)) 0x0000FFFF = (a / 2 ^ 32) mod 2 ^ 16.
Proof.
  unfold wrap.
  change 0x0000FFFF with (Z.ones 16).
  rewrite Z.land_ones, Z.shiftr_div_pow2 by lia.
  apply Z.mod_mod_divide.
  exists (2 ^ 16); lia.
Qed.

(** X1.  Word 0 of the descriptor computes the low 32 bits of the base
    address, and words 0 and 1 together hold exactly its low 48 bits:
    word0 + 2^32 * word1 = address mod 2^48. *)
Theorem base_address_words (chipset : Chipset) (gpuOp : GpuOp)
    (l : Lowered) :
  lower chipset gpuOp = success l ->
  exists word0 word1,
    descriptorWord 0 l = Some word0
    /\ descriptorWord 1 l = Some word1
    /\ forall rho : Env,
         let address := wrap 64 (alignedPtrValue rho) in
         exists a0 a1,
           eval rho word0 = Some a0
           /\ eval rho word1 = Some a1
           /\ a0 = address mod 2 ^ 32
           /\ a0 + 2 ^ 32 * a1 = address mod 2 ^ 48.
Proof.
  intros H.
  destruct (descriptorWord_lowered _ _ _ _ _ H)
    as (nr & _ & H0 & H1 & _ & _).
  exists (lowHalf (getMemref (common gpuOp))),
    (highHalfTruncated (getMemref (common gpuOp))).
  split; [exact H0 |]; split; [exact H1 |].
  intros rho address.
  exists (address mod 2 ^ 32), ((address / 2 ^ 32) mod 2 ^ 16).
  split; [apply eval_lowHalf |].
  split; [rewrite eval_highHalfTruncated; f_equal; apply high_half_bits |].
  split; [reflexivity |].
  replace (2 ^ 48) with (2 ^ 32 * 2 ^ 16) by lia.
  rewrite Z.rem_mul_r by lia.
  reflexivity.
Qed.

(** X2.  Word 3 of the descriptor takes one of three values: 0x27000 on a
    chipset of major version other than 10, and 0x31027000 or 0x21027000 on
    major version 10 with and without bounds checking.  Every field the
    source leaves at zero is zero: bits 0-11, bits 19-23, bits 25-27 and
    bits 30-31. *)
Theorem word3_values (chipset : Chipset) (gpuOp : GpuOp) (l : Lowered) :
  lower chipset gpuOp = success l ->
  exists w,
    descriptorWord 3 l = Some (LLVM_ConstantOp i32 w)
    /\ w = (if majorVersion chipset =? 10 then
              if getBoundsCheck (common gpuOp) then 0x31027000
              else 0x21027000
            else 0x27000)
    /\ bitField w 0 12 = 0
    /\ bitField w 19 5 = 0
    /\ bitField w 25 3 = 0
    /\ bitField w 30 2 = 0.
Proof.
  intros H.
  destruct (descriptorWord_lowered _ _ _ _ _ H) as (nr & _ & _ & _ & _ & H3).
  exists (word3 chipset (getBoundsCheck (common gpuOp))).
  split.
  - rewrite H3; unfold createI32Constant.
    rewrite word3_fits; reflexivity.
  - unfold word3.
    destruct (majorVersion chipset =? 10);
      [destruct (getBoundsCheck (common gpuOp)) |];
      repeat split; reflexivity.
Qed.

(** X3.  The created call has the fixed argument list: the data operand
    for a store or an atomic add and none for a load, then the descriptor,
    a value of type vector<4xi32> with all four words inserted, then
    [voffset], [sgprOffset] and the constant 0; it calls the intrinsic of
    the operation's kind. *)
Theorem call_shape (chipset : Chipset) (gpuOp : GpuOp) (l : Lowered) :
  lower chipset gpuOp = success l ->
  exists descriptor voffset sgprOffset,
    args l = dataArgs l ++ [Some descriptor; voffset; Some sgprOffset;
                            Some (LLVM_ConstantOp i32 0)]
    /\ List.length (dataArgs l)
       = match gpuOp with
         | RawBufferLoadOp _ _ => 0%nat
         | _ => 1%nat
         end
    /\ getType descriptor = VectorType [4%N] (IntegerType 32)
    /\ (forall n, 0 <= n < 4 -> insertedAt n descriptor <> None)
    /\ intrinsic l = intrinsicOf gpuOp.
Proof.
  intros H.
  destruct (matchAndRewrite_success _ _ _ _ _ H)
    as (wanted & wire & strides & offset & nr & vo
        & _ & Hw & _ & _ & _ & _ & ->).
  exists (resource chipset (common gpuOp) nr), vo,
    (sgprOffset kDynamicStrideOrOffset (common gpuOp) offset).
  lowered_args.
  split; [reflexivity |].
  split.
  - unfold wantedDataType, storeData in Hw |- *.
    destruct gpuOp as [c resultType | value c | value c];
      cbn [getODSOperands0 common getODSResults0Type] in *.
    + destruct (Value_eq_dec (getMemref c) (getMemref c));
        [reflexivity | contradiction].
    + destruct (Value_eq_dec value (getMemref c)); [discriminate |].
      unfold storeArgs; destruct (MlirType_eq_dec _ _); reflexivity.
    + destruct (Value_eq_dec value (getMemref c)); [discriminate |].
      unfold storeArgs; destruct (MlirType_eq_dec _ _); reflexivity.
  - split; [reflexivity |].
    split; [| reflexivity].
    intros n Hn.
    assert (Hcases : n = 0 \/ n = 1 \/ n = 2 \/ n = 3) by lia.
    destruct Hcases as [-> | [-> | [-> | ->]]]; discriminate.
Qed.

End DescriptorWords.

Lemma base_address_words_witness :
  let l := Examples.lowered
             (Examples.lower Examples.gfx908 Examples.load_4x8) in
  Examples.lower Examples.gfx908 Examples.load_4x8 = success l
  /\ exists word0 word1,
       descriptorWord 0 l = Some word0
       /\ descriptorWord 1 l = Some word1
       /\ eval Examples.env0 word0 = Some 0x9ABCDEF0
       /\ eval Examples.env0 word1 = Some 0x5678.
Proof.
  intros l.
  split; [reflexivity |].
  destruct (base_address_words Examples.kDynamicSize
              Examples.kDynamicStrideOrOffset Examples.gfx908
              Examples.load_4x8 l eq_refl) as (word0 & word1 & H0 & H1 & Hv).
  exists word0, word1.
  split; [exact H0 |]; split; [exact H1 |].
  destruct (Hv Examples.env0) as (a0 & a1 & He0 & He1 & -> & Hsum).
  split; [rewrite He0; reflexivity |].
  rewrite He1; f_equal.
  change (wrap 64 (alignedPtrValue Examples.env0) mod 2 ^ 32)
    with 0x9ABCDEF0 in Hsum.
  change (wrap 64 (alignedPtrValue Examples.env0) mod 2 ^ 48)
    with 0x56789ABCDEF0 in Hsum.
  lia.
Defined.

Lemma word3_values_witness :
  let l := Examples.lowered
             (Examples.lower Examples.gfx1030 Examples.load_4x8) in
  Examples.lower Examples.gfx1030 Examples.load_4x8 = success l
  /\ descriptorWord 3 l = Some (LLVM_ConstantOp i32 0x31027000).
Proof.
  intros l.
  split; [reflexivity |].
  destruct (word3_values Examples.kDynamicSize
              Examples.kDynamicStrideOrOffset Examples.gfx1030
              Examples.load_4x8 l eq_refl) as (w & H3 & -> & _).
  exact H3.
Defined.

Lemma call_shape_witness :
  let l := Examples.lowered
             (Examples.lower Examples.gfx908 Examples.store_v4i8) in
  Examples.lower Examples.gfx908 Examples.store_v4i8 = success l
  /\ List.length (args l) = 5%nat
  /\ intrinsic l = ROCDL_RawBufferStoreOp.
Proof.
  intros l.
  split; [reflexivity |].
  destruct (call_shape Examples.kDynamicSize
              Examples.kDynamicStrideOrOffset Examples.gfx908
              Examples.store_v4i8 l eq_refl)
    as (descriptor & voffset & sgprOffset & Hargs & Hlen & _ & _ & Hintr).
  split; [| exact Hintr].
  rewrite Hargs, length_app, Hlen; reflexivity.
Defined.

Section Outcomes.

Variable kDynamicSize : Z.
Variable kDynamicStrideOrOffset : Z.

Let lower := matchAndRewrite kDynamicSize kDynamicStrideOrOffset.

(** X4.  A lowered load is replaced by a value that has the type of the
    original result: the result of the intrinsic itself where the wire type
    is that type, and otherwise a bitcast of it; the intrinsic has one
    result, of the wire type.  A lowered store or atomic add is erased and
    its intrinsic has no result. *)
Theorem rewrite_by_kind (chipset : Chipset) (gpuOp : GpuOp) (l : Lowered) :
  lower chipset gpuOp = success l ->
  match gpuOp with
  | RawBufferLoadOp _ resultType =>
      exists wire replacement,
        llvmBufferValType resultType = success wire
        /\ resultTypes l = [wire]
        /\ opRewrite l = replaceOp replacement
        /\ getType replacement = resultType
        /\ (wire = resultType -> replacement = IntrinsicResult wire)
        /\ (wire <> resultType ->
            replacement = LLVM_BitcastOp resultType (IntrinsicResult wire))
  | _ => resultTypes l = [] /\ opRewrite l = eraseOp
  end.
Proof.
  intros H.
  destruct gpuOp as [c resultType | value c | value c].
  - destruct (load_boundary _ _ _ _ _ _ H) as (wire & Hwire & Hres & Hrw).
    destruct (MlirType_eq_dec wire resultType) as [-> | Hne].
    + exists resultType, (IntrinsicResult resultType).
      repeat split; try assumption; try reflexivity.
      intros Hne; contradiction.
    + exists wire, (LLVM_BitcastOp resultType (IntrinsicResult wire)).
      repeat split; try assumption; try reflexivity.
      intros Heq; contradiction.
  - destruct (matchAndRewrite_success _ _ _ _ _ H)
      as (wanted & wire & strides & offset & nr & vo
          & _ & _ & _ & _ & _ & _ & ->).
    split; reflexivity.
  - destruct (matchAndRewrite_success _ _ _ _ _ H)
      as (wanted & wire & strides & offset & nr & vo
          & _ & _ & _ & _ & _ & _ & ->).
    split; reflexivity.
Qed.

(** X5.  When an operation has an index or an extra index offset and the
    strides of its memref are statically known, the [voffset] argument of
    its call is a 32-bit value that computes, modulo 2^32, the sum over the
    dimensions of index * (stride * element byte width) plus the extra
    index offset times the element byte width. *)
Theorem voffset_sum (chipset : Chipset) (gpuOp : GpuOp) (l : Lowered)
    (rho : Env) (xs : list Z) :
  lower chipset gpuOp = success l ->
  let c := common gpuOp in
  let ebw := elementByteWidth (memrefType c) in
  Forall2 (computes32 rho) (getIndices c) xs ->
  getIndices c <> [] \/ getIndexOffset c <> None ->
  exists strides offset,
    stridesAndOffset (memrefType c) = Some (strides, offset)
    /\ (staticStrides kDynamicStrideOrOffset strides ->
        exists v,
          voffsetArg l = Some (Some v)
          /\ getType v = i32
          /\ eval rho v
             = Some (wrap 32 (indexTerms strides ebw 0 xs
                              + extraTerm (getIndexOffset c) ebw))).
Proof.
  intros H c ebw Hxs Hsome.
  destruct (voffsetArg_lowered _ _ _ _ _ H)
    as (strides & offset & vo & Hlayout & _ & _).
  exists strides, offset; split; [exact Hlayout |].
  intros Hstatic.
  exact (voffset_value _ _ _ _ _ strides offset rho xs
                       H Hlayout Hstatic Hxs Hsome).
Qed.

Lemma voffsetLoop_success_length (strides : list Z) (ebw : Z)
    (memref byteWidthConst : Value) (indices : list Value) :
  forall (i : nat) (acc r : option Value),
    voffsetLoop kDynamicStrideOrOffset strides ebw memref byteWidthConst
                i indices acc
    = success r ->
    indices = [] \/ (i + List.length indices <= List.length strides)%nat.
Proof.
  induction indices as [| index rest IH]; intros i acc r Hloop;
    [left; reflexivity | right].
  cbn [voffsetLoop] in Hloop.
  destruct (nth_error strides i) as [stride |] eqn:Hnth; [| discriminate].
  assert (Hi : (i < List.length strides)%nat)
    by (apply nth_error_Some; congruence).
  apply IH in Hloop as [-> | Hlen]; cbn [List.length]; lia.
Qed.

(** X6.  The lowering succeeds exactly when the chipset has major version
    9 or more, the wanted data type passes width adaptation, the memref has
    a strided layout, and there are no more indices than strides. *)
Theorem lowering_succeeds_iff (chipset : Chipset) (gpuOp : GpuOp) :
  (exists l, lower chipset gpuOp = success l)
  <-> 9 <= majorVersion chipset
      /\ exists wanted wire strides offset,
           wantedDataType gpuOp = success wanted
           /\ llvmBufferValType wanted = success wire
           /\ stridesAndOffset (memrefType (common gpuOp))
              = Some (strides, offset)
           /\ (List.length (getIndices (common gpuOp))
               <= List.length strides)%nat.
Proof.
  split.
  - intros [l H].
    destruct (matchAndRewrite_success _ _ _ _ _ H)
      as (wanted & wire & strides & offset & nr & vo
          & Hgate & Hw & Hb & Hlayout & _ & Hvo & _).
    split; [exact Hgate |].
    exists wanted, wire, strides, offset.
    repeat split; try assumption.
    unfold voffset in Hvo.
    destruct (voffsetLoop _ _ _ _ _ _ _ _) as [r | |] eqn:Hloop;
      try discriminate.
    apply voffsetLoop_success_length in Hloop as [-> | Hlen];
      cbn [List.length]; lia.
  - intros (Hgate & wanted & wire & strides & offset
            & Hw & Hb & Hlayout & Hlen).
    exact (matchAndRewrite_defined kDynamicSize kDynamicStrideOrOffset
             chipset gpuOp wanted wire strides offset
             Hgate Hw Hb Hlayout Hlen).
Qed.

Lemma Twine_maxVectorOpWidth : Twine maxVectorOpWidth = "128"%string.
Proof. reflexivity. Qed.

(** X7.  On a chipset that passes the gate, an operation on a vector type
    of more than 128 bits in total fails with the diagnostic "Total width
    of loads or stores must be no more than 128 bits, but we call for N
    bits. This should've been caught in validation", N being the total
    width in decimal; the memref is not looked at. *)
Theorem oversized_vector_rejected (chipset : Chipset) (gpuOp : GpuOp)
    (shape : list N) (elementType : ScalarType) :
  let total :=
    (getNumElements shape * getIntOrFloatBitWidth elementType)%N in
  9 <= majorVersion chipset ->
  wantedDataType gpuOp = success (VectorType shape elementType) ->
  fitsUint32 (VectorType shape elementType) ->
  (128 < total)%N ->
  lower chipset gpuOp = emitOpError (oversizedMessage total).
Proof.
  intros total Hgate Hw [HB Htotal] Hbig.
  unfold lower, matchAndRewrite.
  apply Z.ltb_ge in Hgate; rewrite Hgate, Hw; cbn [bind].
  unfold llvmBufferValType.
  rewrite (N.mod_small _ _ HB).
  rewrite (N.mul_comm (getIntOrFloatBitWidth elementType)).
  rewrite (N.mod_small _ _ Htotal).
  fold total.
  apply N.ltb_lt in Hbig.
  unfold maxVectorOpWidth at 1; rewrite Hbig.
  rewrite Twine_maxVectorOpWidth; reflexivity.
Qed.

(** X8.  On a chipset that passes the gate, an operation on a vector of
    elements narrower than 32 bits whose total width is above 32 bits, at
    most 128, and not a multiple of 32 fails with the diagnostic "Load or
    store of more than 32-bits that doesn't fit into words. Can't happen"
    followed by a newline. *)
Theorem misaligned_vector_rejected (chipset : Chipset) (gpuOp : GpuOp)
    (shape : list N) (elementType : ScalarType) :
  let total :=
    (getNumElements shape * getIntOrFloatBitWidth elementType)%N in
  9 <= majorVersion chipset ->
  wantedDataType gpuOp = success (VectorType shape elementType) ->
  (getIntOrFloatBitWidth elementType < 32)%N ->
  (32 < total <= 128)%N ->
  (total mod 32 <> 0)%N ->
  lower chipset gpuOp = emitOpError misalignedMessage.
Proof.
  intros total Hgate Hw HB [Hlo Hhi] Hmod.
  unfold lower, matchAndRewrite.
  apply Z.ltb_ge in Hgate; rewrite Hgate, Hw; cbn [bind].
  unfold llvmBufferValType, maxVectorOpWidth.
  rewrite (N.mod_small (getIntOrFloatBitWidth elementType))
    by (change (2 ^ 32)%N with 4294967296%N; lia).
  rewrite (N.mul_comm (getIntOrFloatBitWidth elementType)).
  fold total.
  rewrite (N.mod_small total)
    by (change (2 ^ 32)%N with 4294967296%N; lia).
  replace (128 <? total)%N with false by (symmetry; apply N.ltb_ge; lia).
  replace (getIntOrFloatBitWidth elementType <? 32)%N with true
    by (symmetry; apply N.ltb_lt; lia).
  replace (32 <? total)%N with true by (symmetry; apply N.ltb_lt; lia).
  replace (total mod 32 =? 0)%N with false
    by (symmetry; apply N.eqb_neq; exact Hmod).
  reflexivity.
Qed.

(** X9.  On a chipset that passes the gate, an operation whose data type
    passes width adaptation but whose memref has no strided layout fails
    with the diagnostic "Can't lower non-stride-offset memrefs". *)
Theorem unstrided_memref_rejected (chipset : Chipset) (gpuOp : GpuOp)
    (wanted wire : MlirType) :
  9 <= majorVersion chipset ->
  wantedDataType gpuOp = success wanted ->
  llvmBufferValType wanted = success wire ->
  stridesAndOffset (memrefType (common gpuOp)) = None ->
  lower chipset gpuOp = emitOpError "Can't lower non-stride-offset memrefs".
Proof.
  intros Hgate Hw Hb Hlayout.
  unfold lower, matchAndRewrite.
  apply Z.ltb_ge in Hgate; rewrite Hgate, Hw; cbn [bind].
  rewrite Hb; cbn [bind]; rewrite Hlayout; reflexivity.
Qed.

Lemma llvmBufferValType_errors (t : MlirType) (message : string) :
  llvmBufferValType t = emitOpError message ->
  (exists totalBits, (128 < totalBits)%N
                     /\ message = oversizedMessage totalBits)
  \/ message = misalignedMessage.
Proof.
  destruct t as [s | shape elementType | |]; try discriminate.
  unfold llvmBufferValType.
  set (elemBits := (getIntOrFloatBitWidth elementType mod 2 ^ 32)%N).
  set (totalBits := ((elemBits * getNumElements shape) mod 2 ^ 32)%N).
  unfold maxVectorOpWidth at 1.
  destruct (128 <? totalBits)%N eqn:Hbig.
  - intros [= <-]; left; exists totalBits.
    split; [apply N.ltb_lt; exact Hbig | reflexivity].
  - destruct (elemBits <? 32)%N; [| discriminate].
    destruct (32 <? totalBits)%N; [| discriminate].
    destruct (totalBits mod 32 =? 0)%N; [discriminate |].
    intros [= <-]; right; reflexivity.
Qed.

(** X10.  The lowering emits no other diagnostic than these four: the
    chipset one, the total-width one for some width above 128, the
    doesn't-fit-into-words one, and the non-stride-offset one. *)
Theorem diagnostics_closed (chipset : Chipset) (gpuOp : GpuOp)
    (message : string) :
  lower chipset gpuOp = emitOpError message ->
  message = "Raw buffer ops require GCN or higher"%string
  \/ (exists totalBits, (128 < totalBits)%N
                        /\ message = oversizedMessage totalBits)
  \/ message = misalignedMessage
  \/ message = "Can't lower non-stride-offset memrefs"%string.
Proof.
  unfold lower, matchAndRewrite.
  destruct (majorVersion chipset <? 9); [intros [= <-]; auto |].
  destruct (wantedDataType gpuOp) as [wanted | m |] eqn:Hw;
    cbn [bind]; try discriminate.
  - destruct (llvmBufferValType wanted) as [wire | m |] eqn:Hb;
      cbn [bind]; try discriminate.
    + destruct (stridesAndOffset _) as [[strides offset] |];
        [| intros [= <-]; auto].
      destruct (numRecords_defined kDynamicSize
                  (memrefType (common gpuOp)) (getMemref (common gpuOp))
                  (createI32Constant
                     (elementByteWidth (memrefType (common gpuOp)))))
        as [nr ->].
      cbn [bind]; unfold voffset.
      destruct (voffsetLoop _ _ _ _ _ _ _ _) as [r | m |] eqn:Hloop;
        cbn [bind]; try discriminate.
      exfalso; revert Hloop; clear.
      generalize 0%nat, (@None Value).
      induction (getIndices (common gpuOp)) as [| index rest IH];
        intros i acc; cbn [voffsetLoop]; [discriminate |].
      destruct (nth_error strides i); [apply IH | discriminate].
    + intros [= <-].
      destruct (llvmBufferValType_errors wanted m Hb) as [Hbig | Hmis];
        auto.
  - exfalso.
    unfold wantedDataType in Hw.
    destruct (storeData gpuOp); [discriminate |].
    destruct (getODSResults0Type gpuOp); discriminate.
Qed.

End Outcomes.

Lemma rewrite_by_kind_witness :
  let l := Examples.lowered
             (Examples.lower Examples.gfx908 Examples.load_v4i8) in
  Examples.lower Examples.gfx908 Examples.load_v4i8 = success l
  /\ resultTypes l = [i32]
  /\ opRewrite l
     = replaceOp (LLVM_BitcastOp Examples.v4i8 (IntrinsicResult i32)).
Proof.
  intros l.
  split; [reflexivity |].
  destruct (rewrite_by_kind Examples.kDynamicSize
              Examples.kDynamicStrideOrOffset Examples.gfx908
              Examples.load_v4i8 l eq_refl)
    as (wire & replacement & Hwire & Hres & Hrw & _ & _ & Hcast).
  injection Hwire as <-.
  rewrite (Hcast ltac:(discriminate)) in Hrw.
  split; [exact Hres | exact Hrw].
Defined.

Lemma voffset_sum_witness :
  let l := Examples.lowered
             (Examples.lower Examples.gfx908 Examples.load_4x8) in
  Examples.lower Examples.gfx908 Examples.load_4x8 = success l
  /\ Forall2 (computes32 Examples.env0)
             (getIndices (common Examples.load_4x8)) [2; 3]
  /\ staticStrides Examples.kDynamicStrideOrOffset [8; 1]
  /\ exists v, voffsetArg l = Some (Some v)
               /\ eval Examples.env0 v = Some 76.
Proof.
  intros l.
  assert (Hxs : Forall2 (computes32 Examples.env0)
                        (getIndices (common Examples.load_4x8)) [2; 3])
    by (repeat constructor).
  assert (Hstatic : staticStrides Examples.kDynamicStrideOrOffset [8; 1])
    by (repeat constructor; discriminate).
  split; [reflexivity |].
  split; [exact Hxs |].
  split; [exact Hstatic |].
  destruct (voffset_sum Examples.kDynamicSize
              Examples.kDynamicStrideOrOffset Examples.gfx908
              Examples.load_4x8 l Examples.env0 [2; 3] eq_refl Hxs
              ltac:(left; discriminate))
    as (strides & offset & Hlayout & Hsum).
  injection Hlayout as <- <-.
  destruct (Hsum Hstatic) as (v & Harg & _ & Hv).
  exists v; split; [exact Harg | exact Hv].
Defined.

Lemma lowering_succeeds_iff_witness :
  (exists l, Examples.lower Examples.gfx908 Examples.load_4x8 = success l)
  /\ ~ (exists l,
           Examples.lower Examples.gfx908 MoreExamples.load_two_indices
           = success l).
Proof.
  split.
  - apply (lowering_succeeds_iff Examples.kDynamicSize
             Examples.kDynamicStrideOrOffset Examples.gfx908
             Examples.load_4x8).
    split; [cbn; lia |].
    exists Examples.f32, Examples.f32, [8; 1], 0.
    repeat split; cbn; lia.
  - intros H.
    apply (lowering_succeeds_iff Examples.kDynamicSize
             Examples.kDynamicStrideOrOffset Examples.gfx908
             MoreExamples.load_two_indices) in H.
    destruct H as (_ & wanted & wire & strides & offset
                   & _ & _ & Hlayout & Hlen).
    injection Hlayout as <- <-.
    cbn in Hlen; lia.
Defined.

Lemma oversized_vector_rejected_witness :
  9 <= majorVersion Examples.gfx908
  /\ wantedDataType MoreExamples.load_v5f32 = success MoreExamples.v5f32
  /\ fitsUint32 MoreExamples.v5f32
  /\ Examples.lower Examples.gfx908 MoreExamples.load_v5f32
     = emitOpError
         "Total width of loads or stores must be no more than 128 bits, but we call for 160 bits. This should've been caught in validation".
Proof.
  assert (Hgate : 9 <= majorVersion Examples.gfx908) by (cbn; lia).
  assert (Hfit : fitsUint32 MoreExamples.v5f32) by (split; reflexivity).
  split; [exact Hgate |].
  split; [reflexivity |].
  split; [exact Hfit |].
  exact (oversized_vector_rejected Examples.kDynamicSize
           Examples.kDynamicStrideOrOffset Examples.gfx908
           MoreExamples.load_v5f32 [5%N] (FloatType F32)
           Hgate eq_refl Hfit eq_refl).
Defined.

Lemma misaligned_vector_rejected_witness :
  9 <= majorVersion Examples.gfx908
  /\ wantedDataType MoreExamples.load_v3i16 = success MoreExamples.v3i16
  /\ Examples.lower Examples.gfx908 MoreExamples.load_v3i16
     = emitOpError misalignedMessage.
Proof.
  assert (Hgate : 9 <= majorVersion Examples.gfx908) by (cbn; lia).
  split; [exact Hgate |].
  split; [reflexivity |].
  apply (misaligned_vector_rejected Examples.kDynamicSize
           Examples.kDynamicStrideOrOffset Examples.gfx908
           MoreExamples.load_v3i16 [3%N] (IntegerType 16) Hgate eq_refl).
  - reflexivity.
  - split; [reflexivity | discriminate].
  - discriminate.
Defined.

Lemma unstrided_memref_rejected_witness :
  9 <= majorVersion Examples.gfx908
  /\ stridesAndOffset (memrefType (common MoreExamples.load_unstrided)) = None
  /\ Examples.lower Examples.gfx908 MoreExamples.load_unstrided
     = emitOpError "Can't lower non-stride-offset memrefs".
Proof.
  assert (Hgate : 9 <= majorVersion Examples.gfx908) by (cbn; lia).
  split; [exact Hgate |].
  split; [reflexivity |].
  exact (unstrided_memref_rejected Examples.kDynamicSize
           Examples.kDynamicStrideOrOffset Examples.gfx908
           MoreExamples.load_unstrided Examples.f32 Examples.f32
           Hgate eq_refl eq_refl eq_refl).
Defined.

Lemma diagnostics_closed_witness :
  Examples.lower Examples.gfx908 MoreExamples.load_v5f32
  = emitOpError (oversizedMessage 160)
  /\ (oversizedMessage 160 = "Raw buffer ops require GCN or higher"%string
      \/ (exists totalBits,
             (128 < totalBits)%N
             /\ oversizedMessage 160 = oversizedMessage totalBits)
      \/ oversizedMessage 160 = misalignedMessage
      \/ oversizedMessage 160
         = "Can't lower non-stride-offset memrefs"%string).
Proof.
  split; [reflexivity |].
  exact (diagnostics_closed Examples.kDynamicSize
           Examples.kDynamicStrideOrOffset Examples.gfx908
           MoreExamples.load_v5f32 (oversizedMessage 160) eq_refl).
Defined.

Section Independence.

Variable kDynamicSize : Z.
Variable kDynamicStrideOrOffset : Z.

Let lower := matchAndRewrite kDynamicSize kDynamicStrideOrOffset.

(** X11.  The chipset enters the lowering through two tests only, major
    version below 9 and major version equal to 10: two chipsets that agree
    on both give the same result for every operation.  The minor version
    is never read. *)
Theorem lowering_depends_on_generation (chipset1 chipset2 : Chipset)
    (gpuOp : GpuOp) :
  (majorVersion chipset1 <? 9) = (majorVersion chipset2 <? 9) ->
  (majorVersion chipset1 =? 10) = (majorVersion chipset2 =? 10) ->
  lower chipset1 gpuOp = lower chipset2 gpuOp.
Proof.
  intros Hgate Hten.
  unfold lower, matchAndRewrite.
  rewrite Hgate.
  destruct (majorVersion chipset2 <? 9); [reflexivity |].
  destruct (wantedDataType gpuOp) as [wanted | |]; try reflexivity.
  cbn [bind].
  destruct (llvmBufferValType wanted) as [wire | |]; try reflexivity.
  cbn [bind].
  destruct (stridesAndOffset _) as [[strides offset] |]; [| reflexivity].
  destruct (numRecords _ _ _ _) as [nr | |]; try reflexivity.
  cbn [bind].
  destruct (voffset _ _ _ _) as [vo | |]; try reflexivity.
  cbn [bind].
  unfold resource, word3; rewrite Hten; reflexivity.
Qed.

(** X12.  On a chipset whose major version is not 10 the bounds-check
    attribute has no effect: the operation lowers to the same call with
    the attribute set either way. *)
Theorem bounds_check_ignored_off_gfx10 (chipset : Chipset) (gpuOp : GpuOp)
    (b : bool) :
  majorVersion chipset <> 10 ->
  lower chipset (setBoundsCheck b gpuOp) = lower chipset gpuOp.
Proof.
  intros Hne; apply Z.eqb_neq in Hne.
  unfold lower, matchAndRewrite.
  destruct (majorVersion chipset <? 9); [reflexivity |].
  destruct gpuOp as [[m t ix bc io so] resultType
                    | value [m t ix bc io so]
                    | value [m t ix bc io so]];
    unfold wantedDataType, storeData, voffset, resource, word3, sgprOffset;
    cbn [setBoundsCheck common getMemref memrefType getIndices
         getBoundsCheck getIndexOffset getSgprOffset getODSOperands0
         getODSResults0Type getNumResults intrinsicOf];
    rewrite Hne; reflexivity.
Qed.

(** X13.  Lowering an atomic add is lowering the store of the same value
    to the same place, with the atomic-add intrinsic in the place of the
    store intrinsic: same arguments, same failures. *)
Theorem atomic_add_lowers_as_store (chipset : Chipset) (value : Value)
    (c : Common) :
  lower chipset (RawBufferAtomicFaddOp value c)
  = mapOutcome (withIntrinsic ROCDL_RawBufferAtomicFAddOp)
               (lower chipset (RawBufferStoreOp value c)).
Proof.
  unfold lower, matchAndRewrite, wantedDataType, storeData.
  cbn [common getODSOperands0 getODSResults0Type getNumResults intrinsicOf].
  destruct (majorVersion chipset <? 9); [reflexivity |].
  destruct (Value_eq_dec value (getMemref c)); [reflexivity |].
  cbn [bind].
  destruct (llvmBufferValType (getType value)) as [wire | |];
    try reflexivity.
  cbn [bind].
  destruct (stridesAndOffset _) as [[strides offset] |]; [| reflexivity].
  destruct (numRecords _ _ _ _) as [nr | |]; try reflexivity.
  cbn [bind].
  destruct (voffset _ _ _ _) as [vo | |]; reflexivity.
Qed.

End Independence.

Lemma lowering_depends_on_generation_witness :
  (majorVersion Examples.gfx908 <? 9) = (majorVersion (mkChipset 11 0) <? 9)
  /\ (majorVersion Examples.gfx908 =? 10)
     = (majorVersion (mkChipset 11 0) =? 10)
  /\ Examples.lower Examples.gfx908 Examples.store_v4i8
     = Examples.lower (mkChipset 11 0) Examples.store_v4i8.
Proof.
  split; [reflexivity |].
  split; [reflexivity |].
  exact (lowering_depends_on_generation Examples.kDynamicSize
           Examples.kDynamicStrideOrOffset Examples.gfx908 (mkChipset 11 0)
           Examples.store_v4i8 eq_refl eq_refl).
Defined.

Lemma bounds_check_ignored_off_gfx10_witness :
  majorVersion Examples.gfx908 <> 10
  /\ Examples.lower Examples.gfx908 (setBoundsCheck false Examples.load_4x8)
     = Examples.lower Examples.gfx908 Examples.load_4x8.
Proof.
  assert (Hne : majorVersion Examples.gfx908 <> 10) by discriminate.
  split; [exact Hne |].
  exact (bounds_check_ignored_off_gfx10 Examples.kDynamicSize
           Examples.kDynamicStrideOrOffset Examples.gfx908
           Examples.load_4x8 false Hne).
Defined.

Section Repacking.

Variable kDynamicSize : Z.
Variable kDynamicStrideOrOffset : Z.

Let lower := matchAndRewrite kDynamicSize kDynamicStrideOrOffset.

(** Width adaptation changes the type of a vector of narrow elements, and
    of nothing else. *)
Lemma llvmBufferValType_changes (T W : MlirType) :
  llvmBufferValType T = success W ->
  (repacked T = true -> W <> T) /\ (repacked T = false -> W = T).
Proof.
  destruct T as [s | shape elementType | |];
    try (intros [= <-]; split; [discriminate | reflexivity]).
  unfold llvmBufferValType, repacked, narrowElement, convertType.
  set (elemBits := (getIntOrFloatBitWidth elementType mod 2 ^ 32)%N).
  set (totalBits := ((elemBits * getNumElements shape) mod 2 ^ 32)%N).
  destruct (maxVectorOpWidth <? totalBits)%N; [discriminate |].
  destruct (elemBits <? 32)%N eqn:Hnarrow;
    [| intros [= <-]; split; [discriminate | reflexivity]].
  destruct (32 <? totalBits)%N.
  - destruct (totalBits mod 32 =? 0)%N; [| discriminate].
    cbn [negb]; intros [= <-].
    split; [| discriminate].
    intros _ [= _ <-].
    subst elemBits; cbn in Hnarrow; discriminate.
  - intros [= <-]; split; [intros _; discriminate | discriminate].
Qed.

(** X15.  A lowered store hands its operand to the intrinsic through a
    bitcast to the wire type exactly when the operand is a vector of
    elements narrower than 32 bits; an operand of any other type, a vector
    of 32-bit or wider elements included, is handed over as it is and its
    wire type is its own type. *)
Theorem cast_inserted_iff_repacked (chipset : Chipset) (c : Common)
    (id : nat) (T : MlirType) (l : Lowered) :
  lower chipset (RawBufferStoreOp (Operand id T) c) = success l ->
  exists wire,
    llvmBufferValType T = success wire
    /\ (repacked T = true ->
        wire <> T
        /\ dataArgs l = [Some (LLVM_BitcastOp wire (Operand id T))])
    /\ (repacked T = false ->
        wire = T /\ dataArgs l = [Some (Operand id T)]).
Proof.
  intros H.
  destruct (store_boundary _ _ _ _ _ _ _ H) as (wire & Hwire & Hdata).
  destruct (llvmBufferValType_changes T wire Hwire) as [Hyes Hno].
  exists wire; split; [exact Hwire |].
  split; intros Hr.
  - specialize (Hyes Hr).
    destruct (MlirType_eq_dec wire T); [contradiction |].
    split; [exact Hyes | exact Hdata].
  - specialize (Hno Hr).
    destruct (MlirType_eq_dec wire T); [| contradiction].
    split; [exact Hno | exact Hdata].
Qed.

Lemma repacked_is_packed (T W : MlirType) :
  llvmBufferValType T = success W ->
  repacked T = true ->
  packedWireType W.
Proof.
  destruct T as [s | shape elementType | |]; try discriminate.
  unfold llvmBufferValType, repacked, narrowElement, convertType,
    maxVectorOpWidth.
  set (elemBits := (getIntOrFloatBitWidth elementType mod 2 ^ 32)%N).
  set (totalBits := ((elemBits * getNumElements shape) mod 2 ^ 32)%N).
  destruct (128 <? totalBits)%N eqn:Hbig; [discriminate |].
  apply N.ltb_ge in Hbig.
  intros Hwire Hnarrow; rewrite Hnarrow in Hwire.
  destruct (32 <? totalBits)%N eqn:Hword.
  - apply N.ltb_lt in Hword.
    destruct (totalBits mod 32 =? 0)%N eqn:Hmod; [| discriminate].
    apply N.eqb_eq in Hmod.
    injection Hwire as <-.
    right; exists (totalBits / 32)%N; split; [reflexivity |].
    pose proof (N.div_mod totalBits 32 ltac:(discriminate)) as Hdiv.
    rewrite Hmod in Hdiv.
    lia.
  - apply N.ltb_ge in Hword.
    injection Hwire as <-.
    left; exists totalBits; split; [reflexivity | exact Hword].
Qed.

(** X16.  The wire type of a vector of elements narrower than 32 bits,
    when width adaptation accepts it, is an integer of at most 32 bits or a
    vector of two, three or four 32-bit integers: narrow elements never
    reach the intrinsic. *)
Theorem repacked_wire_type (T W : MlirType) :
  llvmBufferValType T = success W ->
  repacked T = true ->
  packedWireType W.
Proof. exact (repacked_is_packed T W). Qed.

(** X20.  A wire type needs no further adaptation: width adaptation
    accepts every type it produces and leaves it as it is. *)
Theorem wire_type_is_fixed_point (T W : MlirType) :
  llvmBufferValType T = success W ->
  llvmBufferValType W = success W.
Proof.
  intros Hwire.
  destruct (repacked T) eqn:Hr.
  - destruct (repacked_is_packed T W Hwire Hr)
      as [(k & -> & _) | (k & -> & Hk)]; [reflexivity |].
    unfold llvmBufferValType, maxVectorOpWidth, convertType.
    cbn [getIntOrFloatBitWidth getNumElements fold_right].
    change (32 mod 2 ^ 32)%N with 32%N.
    rewrite N.mul_1_r.
    rewrite (N.mod_small (32 * k))
      by (change (2 ^ 32)%N with 4294967296%N; lia).
    replace (128 <? 32 * k)%N with false by (symmetry; apply N.ltb_ge; lia).
    reflexivity.
  - destruct (llvmBufferValType_changes T W Hwire) as [_ Hno].
    rewrite (Hno Hr) in *; exact Hwire.
Qed.

End Repacking.

Lemma cast_inserted_iff_repacked_witness :
  let l := Examples.lowered
             (Examples.lower Examples.gfx908 MoreExamples.store_v4f32) in
  let l' := Examples.lowered
              (Examples.lower Examples.gfx908 MoreExamples.store_v8f16) in
  Examples.lower Examples.gfx908 MoreExamples.store_v4f32 = success l
  /\ repacked MoreExamples.v4f32 = false
  /\ dataArgs l = [Some (Operand 7 MoreExamples.v4f32)]
  /\ Examples.lower Examples.gfx908 MoreExamples.store_v8f16 = success l'
  /\ repacked MoreExamples.v8f16 = true
  /\ dataArgs l'
     = [Some (LLVM_BitcastOp (VectorType [4%N] (IntegerType 32))
                             (Operand 7 MoreExamples.v8f16))].
Proof.
  intros l l'.
  destruct (cast_inserted_iff_repacked Examples.kDynamicSize
              Examples.kDynamicStrideOrOffset Examples.gfx908
              MoreExamples.common_16xi8 7%nat MoreExamples.v4f32 l eq_refl)
    as (wire & _ & _ & Hno).
  destruct (Hno eq_refl) as [_ Hdata].
  destruct (cast_inserted_iff_repacked Examples.kDynamicSize
              Examples.kDynamicStrideOrOffset Examples.gfx908
              MoreExamples.common_16xi8 7%nat MoreExamples.v8f16 l' eq_refl)
    as (wire' & Hwire' & Hyes & _).
  injection Hwire' as <-.
  destruct (Hyes eq_refl) as [_ Hdata'].
  repeat split; try reflexivity; assumption.
Defined.

Lemma repacked_wire_type_witness :
  llvmBufferValType MoreExamples.v8f16
  = success (VectorType [4%N] (IntegerType 32))
  /\ repacked MoreExamples.v8f16 = true
  /\ packedWireType (VectorType [4%N] (IntegerType 32)).
Proof.
  split; [reflexivity |].
  split; [reflexivity |].
  exact (repacked_wire_type MoreExamples.v8f16
           (VectorType [4%N] (IntegerType 32)) eq_refl eq_refl).
Defined.

Lemma wire_type_is_fixed_point_witness :
  llvmBufferValType MoreExamples.v8f16
  = success (VectorType [4%N] (IntegerType 32))
  /\ llvmBufferValType (VectorType [4%N] (IntegerType 32))
     = success (VectorType [4%N] (IntegerType 32)).
Proof.
  split; [reflexivity |].
  exact (wire_type_is_fixed_point MoreExamples.v8f16
           (VectorType [4%N] (IntegerType 32)) eq_refl).
Defined.

(** * The pattern set *)

Section Patterns.

Variable kDynamicSize : Z.
Variable kDynamicStrideOrOffset : Z.

Let lower := matchAndRewrite kDynamicSize kDynamicStrideOrOffset.


End Patterns.

